(** * codoscope: the pipeline viewer ([src/viewer.py])

    A shallow embedding of the [CodeViewer] application: its reactive
    visibility flags, the panel layout computed by [update_visibility], the
    fan-out of [set_code] and [on_hover_line] over the stage widgets, the key
    bindings and the editor callback.

    The stage widgets ([SourceWidget], [TokenWidget], [ASTWidget],
    [BytecodeWidget]) and the [EditorScreen] are defined in other modules
    ([source_widget], [token_widget], [ast_widget], [bytecode_widget],
    [editor]).  The viewer is therefore written over an interface ([Widget])
    offering the two methods it calls, [set_code] and [highlight], either of
    which may raise, and the CSS class test behind [query_one(".editor")];
    two implementations are given further down: a recorder, which keeps the
    list of calls a widget received, and a panel written after the
    specification's PanelView.

    The application queries its widgets through the screen on top of the
    screen stack: while the editor (or any other screen) is pushed over the
    main screen, the stage widgets are out of reach of [query_one]. *)

From Stdlib Require Import ZArith Bool Lia Ascii String.
From stdpp Require Import base option gmap strings list fin_maps.

Local Open Scope string_scope.
Local Open Scope Z_scope.

(** ** Stages *)

Inductive StageKind :=
| Source | Tokens | AST | OptimizedAST
| PseudoBytecode | OptimizedPseudoBytecode | FinalBytecode.

#[global] Instance StageKind_eq_dec : EqDecision StageKind.
Proof. solve_decision. Defined.

(** The fixed order of the pipeline. *)
Definition all_stages : list StageKind :=
  [Source; Tokens; AST; OptimizedAST; PseudoBytecode;
   OptimizedPseudoBytecode; FinalBytecode].

(** The DOM id the viewer gives to the widget of each stage ([compose]). *)
Definition widget_id (k : StageKind) : string :=
  match k with
  | Source => "source"
  | Tokens => "tokens"
  | AST => "ast"
  | OptimizedAST => "opt-ast"
  | PseudoBytecode => "pseudo-bc"
  | OptimizedPseudoBytecode => "opt-pseudo-bc"
  | FinalBytecode => "opt-code-obj"
  end.

(** [VERSION_3_13 = sys.version_info >= (3, 13)]: tuples compare
    lexicographically, and a longer tuple with an equal prefix is greater. *)
Definition version_at_least_3_13 (major minor : Z) : bool :=
  (3 <? major) || ((major =? 3) && (13 <=? minor)).

(** Stages that exist only when [VERSION_3_13] holds. *)
Definition needs_3_13 (k : StageKind) : bool :=
  match k with
  | OptimizedAST | PseudoBytecode | OptimizedPseudoBytecode => true
  | _ => false
  end.

(** ** Exceptions and the action monad

    Handlers mutate the application in place and may raise; an exception
    leaves the mutations made so far in place. *)

Inductive exn :=
| NoMatches (selector : string)
| CompilationFailed (stage : StageKind) (message : string).

Inductive outcome := Done | Raise (e : exn).

Definition Act (S : Type) : Type := S -> S * outcome.

Definition and_then {S} (a b : Act S) : Act S :=
  fun s => match a s with
           | (s1, Done) => b s1
           | (s1, Raise e) => (s1, Raise e)
           end.

Definition skip {S} : Act S := fun s => (s, Done).

(** [a], then [b] even when [a] raised; the first exception is kept. *)
Definition and_also {S} (a b : Act S) : Act S :=
  fun s =>
    let (s1, o1) := a s in
    let (s2, o2) := b s1 in
    (s2, match o1 with Done => o2 | Raise e => Raise e end).

Declare Scope act_scope.
Delimit Scope act_scope with act.
Bind Scope act_scope with Act.
Notation "a ;; b" := (and_then a b)
  (at level 100, b at level 200, right associativity) : act_scope.
Local Open Scope act_scope.

Definition when {S} (c : bool) (a : Act S) : Act S := if c then a else skip.

Fixpoint for_each {S A} (f : A -> Act S) (l : list A) : Act S :=
  match l with
  | [] => skip
  | x :: l' => (f x ;; for_each f l')%act
  end.

(** ** The widget interface *)

Class Widget (W : Type) := {
  (** the constructor call made by [compose] for a stage *)
  widget_new : StageKind -> W;
  (** [w.set_code(code)]: the new widget, and whether the call raised *)
  widget_set_code : string -> W -> W * outcome;
  (** [w.highlight(lineno)]: the new widget, and whether the call raised *)
  widget_highlight : Z -> W -> W * outcome;
  (** whether the widget, or a widget inside it, carries a CSS class *)
  widget_has_class : string -> W -> bool;
}.

(** A [HoverLine] message. *)
Record HoverLine := { lineno : Z }.

(** Modelled from the spec: the [EditorScreen] (module [editor], absent from
    the sources), the modal surface that "accepts the current source text";
    its state is the text it was last handed through [set_code]. *)
Record EditorScreen := { editor_text : string }.

Definition editor_set_code (code : string) (_ : EditorScreen) : EditorScreen :=
  {| editor_text := code |}.

Inductive Display := block | none.

(** Actions named by [BINDINGS], and [command_palette], which the bindings
    inherited from the framework's [App] name. *)
Inductive Action :=
| quit | open_editor
| toggle_source | toggle_tokens | toggle_ast | toggle_opt_ast
| toggle_pseudo_bc | toggle_opt_pseudo_bc | toggle_code_obj
| command_palette.

#[global] Instance Action_eq_dec : EqDecision Action.
Proof. solve_decision. Defined.

(** Splitting a binding's key list, as in ["q,escape"]. *)
Fixpoint split_keys (acc : string) (s : string) : list string :=
  match s with
  | EmptyString => [String.rev acc]
  | String c s' =>
      if Ascii.eqb c ","%char then String.rev acc :: split_keys EmptyString s'
      else split_keys (String c acc) s'
  end.

(** ** The application *)

Section Viewer.
Context {W : Type} `{Widget W}.

(** [VERSION_3_13], the module-level constant read at import time. *)
Variable VERSION_3_13 : bool.

(** The [Vertical] container [widget_with_title] wraps around a widget:
    a title line and the widget; its [styles.display] is what
    [update_visibility] sets. *)
Record Vertical := {
  title : string;
  display : Display;
  child : W;
}.

Definition set_display (d : Display) (p : Vertical) : Vertical :=
  {| title := title p; display := d; child := child p |}.

Definition set_child (w : W) (p : Vertical) : Vertical :=
  {| title := title p; display := display p; child := w |}.

Definition widget_with_title (w : W) (t : string) : Vertical :=
  {| title := t; display := block; child := w |}.

(** The state of a [CodeViewer]: its own attributes, the editor screen of
    [SCREENS], and the part of the DOM it queries: the columns of [#body]
    ([None] until the viewer first sets them) and the titled widgets inside
    it by id.  [screen_stack] holds the screens pushed over the main screen,
    the one on top first. *)
Record CodeViewer := {
  startup_code : string;
  show_source : bool;
  show_tokens : bool;
  show_ast : bool;
  show_opt_ast : bool;
  show_pseudo_bc : bool;
  show_opt_pseudo_bc : bool;
  show_code_obj : bool;
  editor : EditorScreen;
  body : gmap string Vertical;
  grid_size_columns : option Z;
  screen_stack : list string;
}.

Definition set_body (b : gmap string Vertical) (s : CodeViewer) : CodeViewer :=
  {| startup_code := startup_code s;
     show_source := show_source s; show_tokens := show_tokens s;
     show_ast := show_ast s; show_opt_ast := show_opt_ast s;
     show_pseudo_bc := show_pseudo_bc s;
     show_opt_pseudo_bc := show_opt_pseudo_bc s;
     show_code_obj := show_code_obj s;
     editor := editor s; body := b;
     grid_size_columns := grid_size_columns s;
     screen_stack := screen_stack s |}.

Definition set_grid_size_columns (n : Z) (s : CodeViewer) : CodeViewer :=
  {| startup_code := startup_code s;
     show_source := show_source s; show_tokens := show_tokens s;
     show_ast := show_ast s; show_opt_ast := show_opt_ast s;
     show_pseudo_bc := show_pseudo_bc s;
     show_opt_pseudo_bc := show_opt_pseudo_bc s;
     show_code_obj := show_code_obj s;
     editor := editor s; body := body s;
     grid_size_columns := Some n;
     screen_stack := screen_stack s |}.

Definition set_editor (e : EditorScreen) (s : CodeViewer) : CodeViewer :=
  {| startup_code := startup_code s;
     show_source := show_source s; show_tokens := show_tokens s;
     show_ast := show_ast s; show_opt_ast := show_opt_ast s;
     show_pseudo_bc := show_pseudo_bc s;
     show_opt_pseudo_bc := show_opt_pseudo_bc s;
     show_code_obj := show_code_obj s;
     editor := e; body := body s;
     grid_size_columns := grid_size_columns s;
     screen_stack := screen_stack s |}.

Definition set_screen_stack (st : list string) (s : CodeViewer) : CodeViewer :=
  {| startup_code := startup_code s;
     show_source := show_source s; show_tokens := show_tokens s;
     show_ast := show_ast s; show_opt_ast := show_opt_ast s;
     show_pseudo_bc := show_pseudo_bc s;
     show_opt_pseudo_bc := show_opt_pseudo_bc s;
     show_code_obj := show_code_obj s;
     editor := editor s; body := body s;
     grid_size_columns := grid_size_columns s;
     screen_stack := st |}.

(** The visibility flag of a stage, and its update. *)
Definition show (k : StageKind) (s : CodeViewer) : bool :=
  match k with
  | Source => show_source s
  | Tokens => show_tokens s
  | AST => show_ast s
  | OptimizedAST => show_opt_ast s
  | PseudoBytecode => show_pseudo_bc s
  | OptimizedPseudoBytecode => show_opt_pseudo_bc s
  | FinalBytecode => show_code_obj s
  end.

Definition set_show (k : StageKind) (b : bool) (s : CodeViewer) : CodeViewer :=
  let pick k' := if decide (k' = k) then b else show k' s in
  {| startup_code := startup_code s;
     show_source := pick Source; show_tokens := pick Tokens;
     show_ast := pick AST; show_opt_ast := pick OptimizedAST;
     show_pseudo_bc := pick PseudoBytecode;
     show_opt_pseudo_bc := pick OptimizedPseudoBytecode;
     show_code_obj := pick FinalBytecode;
     editor := editor s; body := body s;
     grid_size_columns := grid_size_columns s;
     screen_stack := screen_stack s |}.

(** [BINDINGS]: key list, action, description. *)
Definition BINDINGS : list (string * Action * string) :=
  if VERSION_3_13 then
    [ ("q,escape", quit, "Quit");
      ("e", open_editor, "Editor");
      ("1", toggle_source, "Source");
      ("2", toggle_tokens, "Tokens");
      ("3", toggle_ast, "AST");
      ("4", toggle_opt_ast, "AST(opt.)");
      ("5", toggle_pseudo_bc, "Pseudo BC");
      ("6", toggle_opt_pseudo_bc, "Opt. BC");
      ("7", toggle_code_obj, "Final BC") ]
  else
    [ ("q,escape", quit, "Quit");
      ("e", open_editor, "Editor");
      ("1", toggle_source, "Source");
      ("2", toggle_tokens, "Tokens");
      ("3", toggle_ast, "AST");
      ("7", toggle_code_obj, "Final BC") ].

(** The bindings the class inherits from the framework's [App]. *)
Definition App_BINDINGS : list (string * Action * string) :=
  [ ("ctrl+c", quit, "Quit");
    ("ctrl+backslash", command_palette, "") ].

Definition all_bindings : list (string * Action * string) :=
  (BINDINGS ++ App_BINDINGS)%list.

(** [self.query_one("#id")]: the application searches the screen on top.
    The stage widgets live on the main screen, so they are found only while
    no screen is pushed over it. *)
Definition query_one (id : string) (s : CodeViewer) : option Vertical :=
  match screen_stack s with
  | [] => body s !! id
  | _ :: _ => None
  end.

(** The sum of the seven flags, as [update_visibility] computes it
    (a Python [bool] counts as 0 or 1). *)
Definition visible_panels (s : CodeViewer) : Z :=
  Z.b2z (show_source s)
  + Z.b2z (show_tokens s)
  + Z.b2z (show_ast s)
  + Z.b2z (show_opt_ast s)
  + Z.b2z (show_pseudo_bc s)
  + Z.b2z (show_opt_pseudo_bc s)
  + Z.b2z (show_code_obj s).

(** [NoMatches] is raised, before anything is changed, when the query finds
    no widget; when it finds one the body is found as well. *)
Definition update_visibility (id : string) (visible : bool) : Act CodeViewer :=
  fun s =>
    match query_one id s with
    | None => (s, Raise (NoMatches ("#" ++ id)))
    | Some p =>
        let s1 :=
          set_body (<[id := set_display (if visible then block else none) p]>
                      (body s)) s in
        (set_grid_size_columns (Z.min (visible_panels s1) 3) s1, Done)
    end.

Definition watch_show_source (show_source : bool) : Act CodeViewer :=
  update_visibility "source" show_source.

Definition watch_show_tokens (show_tokens : bool) : Act CodeViewer :=
  update_visibility "tokens" show_tokens.

Definition watch_show_ast (show_ast : bool) : Act CodeViewer :=
  update_visibility "ast" show_ast.

Definition watch_show_opt_ast (show_opt_ast : bool) : Act CodeViewer :=
  update_visibility "opt-ast" show_opt_ast.

Definition watch_show_pseudo_bc (show_pseudo_bc : bool) : Act CodeViewer :=
  update_visibility "pseudo-bc" show_pseudo_bc.

Definition watch_show_opt_pseudo_bc (show_opt_pseudo_bc : bool)
  : Act CodeViewer :=
  update_visibility "opt-pseudo-bc" show_opt_pseudo_bc.

Definition watch_show_code_obj (show_code_obj : bool) : Act CodeViewer :=
  update_visibility "opt-code-obj" show_code_obj.

(** The watcher the class defines for a flag; three of them are defined
    only under [VERSION_3_13]. *)
Definition watcher (k : StageKind) : option (bool -> Act CodeViewer) :=
  match k with
  | Source => Some watch_show_source
  | Tokens => Some watch_show_tokens
  | AST => Some watch_show_ast
  | OptimizedAST =>
      if VERSION_3_13 then Some watch_show_opt_ast else None
  | PseudoBytecode =>
      if VERSION_3_13 then Some watch_show_pseudo_bc else None
  | OptimizedPseudoBytecode =>
      if VERSION_3_13 then Some watch_show_opt_pseudo_bc else None
  | FinalBytecode => Some watch_show_code_obj
  end.

Definition call_watcher (k : StageKind) (value : bool) : Act CodeViewer :=
  match watcher k with
  | Some w => w value
  | None => skip
  end.

(** Assignment to a reactive [var]: the value is stored first; if it
    differs from the old one, the watcher (when the class has one) runs and
    reads the new value. *)
Definition assign (k : StageKind) (value : bool) : Act CodeViewer :=
  fun s =>
    if Bool.eqb (show k s) value then (s, Done)
    else call_watcher k value (set_show k value s).

(** [compose]: the titled widgets yielded inside [Container(id="body")]. *)
Definition compose : gmap string Vertical :=
  let b0 : gmap string Vertical := ∅ in
  let b1 := <["source" := widget_with_title (widget_new Source) "Source (1)"]> b0 in
  let b2 := <["tokens" := widget_with_title (widget_new Tokens) "Tokens (2)"]> b1 in
  let b3 := <["ast" := widget_with_title (widget_new AST) "AST (3)"]> b2 in
  let b6 :=
    if VERSION_3_13 then
      <["opt-pseudo-bc" :=
          widget_with_title (widget_new OptimizedPseudoBytecode)
            "Optimized Pseudo Bytecode (6)"]>
        (<["pseudo-bc" :=
             widget_with_title (widget_new PseudoBytecode)
               "Pseudo Bytecode (5)"]>
           (<["opt-ast" :=
                widget_with_title (widget_new OptimizedAST)
                  "Optimized AST (4)"]> b3))
    else b3 in
  <["opt-code-obj" :=
      widget_with_title (widget_new FinalBytecode) "Assembled Bytecode (7)"]> b6.

(** [self.query_one("#id", ...).m(...)]: the widget found under [id] is
    mutated in place by the method [m]; [NoMatches] when there is none. *)
Definition call (id : string) (m : W -> W * outcome) : Act CodeViewer :=
  fun s =>
    match query_one id s with
    | None => (s, Raise (NoMatches ("#" ++ id)))
    | Some p =>
        let (w, o) := m (child p) in
        (set_body (<[id := set_child w p]> (body s)) s, o)
    end.

Definition set_code (code : string) : Act CodeViewer :=
  (fun s => (set_editor (editor_set_code code (editor s)) s, Done)) ;;
  call "source" (widget_set_code code) ;;
  call "tokens" (widget_set_code code) ;;
  call "ast" (widget_set_code code) ;;
  when VERSION_3_13
    (call "opt-ast" (widget_set_code code) ;;
     call "pseudo-bc" (widget_set_code code) ;;
     call "opt-pseudo-bc" (widget_set_code code)) ;;
  call "opt-code-obj" (widget_set_code code).

(** [self.query_one(".editor").focus()]: the query searches the screen on
    top for a widget carrying the class [editor] and raises [NoMatches] when
    there is none; the focus itself is not among the fields kept here. *)
Definition focus_editor : Act CodeViewer :=
  fun s =>
    match screen_stack s with
    | [] =>
        if existsb (fun ip => widget_has_class "editor" (child ip.2))
             (map_to_list (body s))
        then (s, Done)
        else (s, Raise (NoMatches ".editor"))
    | _ :: _ => (s, Raise (NoMatches ".editor"))
    end.

Definition on_mount : Act CodeViewer :=
  (fun s => set_code (startup_code s) s) ;; focus_editor.

Definition action_toggle_source : Act CodeViewer :=
  fun s => assign Source (negb (show_source s)) s.

Definition action_toggle_tokens : Act CodeViewer :=
  fun s => assign Tokens (negb (show_tokens s)) s.

Definition action_toggle_ast : Act CodeViewer :=
  fun s => assign AST (negb (show_ast s)) s.

Definition action_toggle_opt_ast : Act CodeViewer :=
  fun s => assign OptimizedAST (negb (show_opt_ast s)) s.

Definition action_toggle_pseudo_bc : Act CodeViewer :=
  fun s => assign PseudoBytecode (negb (show_pseudo_bc s)) s.

Definition action_toggle_opt_pseudo_bc : Act CodeViewer :=
  fun s => assign OptimizedPseudoBytecode (negb (show_opt_pseudo_bc s)) s.

Definition action_toggle_code_obj : Act CodeViewer :=
  fun s => assign FinalBytecode (negb (show_code_obj s)) s.

(** The callback [action_open_editor] hands to [push_screen]. *)
Definition update_code (code : option string) : Act CodeViewer :=
  match code with
  | Some c => set_code c
  | None => skip
  end.

Definition action_open_editor : Act CodeViewer :=
  fun s => (set_screen_stack ("editor" :: screen_stack s) s, Done).

(** The hover handler; the [log] call that opens it has no effect on the
    application. *)
Definition on_hover_line (message : HoverLine) : Act CodeViewer :=
  call "source" (widget_highlight (lineno message)) ;;
  call "tokens" (widget_highlight (lineno message)) ;;
  call "ast" (widget_highlight (lineno message)) ;;
  when VERSION_3_13
    (call "opt-ast" (widget_highlight (lineno message)) ;;
     call "pseudo-bc" (widget_highlight (lineno message)) ;;
     call "opt-pseudo-bc" (widget_highlight (lineno message))) ;;
  call "opt-code-obj" (widget_highlight (lineno message)).

(** ** Dispatch *)

(** The framework's [action_command_palette]: the palette screen is pushed
    unless it is already on top. *)
Definition action_command_palette : Act CodeViewer :=
  fun s =>
    match screen_stack s with
    | top :: _ =>
        if String.eqb top "--command-palette" then (s, Done)
        else (set_screen_stack ("--command-palette" :: screen_stack s) s, Done)
    | [] => (set_screen_stack ["--command-palette"] s, Done)
    end.

(** The method an action name stands for; [quit] is the framework's and
    leaves the viewer's own fields alone. *)
Definition run_action (a : Action) : Act CodeViewer :=
  match a with
  | quit => skip
  | command_palette => action_command_palette
  | open_editor => action_open_editor
  | toggle_source => action_toggle_source
  | toggle_tokens => action_toggle_tokens
  | toggle_ast => action_toggle_ast
  | toggle_opt_ast => action_toggle_opt_ast
  | toggle_pseudo_bc => action_toggle_pseudo_bc
  | toggle_opt_pseudo_bc => action_toggle_opt_pseudo_bc
  | toggle_code_obj => action_toggle_code_obj
  end.

(** The action bound to a key, if any. *)
Fixpoint lookup_binding (bs : list (string * Action * string)) (key : string)
  : option Action :=
  match bs with
  | [] => None
  | (keys, a, _) :: bs' =>
      if existsb (String.eqb key) (split_keys EmptyString keys) then Some a
      else lookup_binding bs' key
  end.

(** A key press that reaches the application's bindings (the class's own,
    then the inherited ones): the bound action runs; an unbound key does
    nothing. *)
Definition on_key (key : string) : Act CodeViewer :=
  match lookup_binding all_bindings key with
  | Some a => run_action a
  | None => skip
  end.

(** The editor screen is dismissed with [result]: it leaves the screen
    stack and the callback registered by [action_open_editor] runs. *)
Definition dismiss_editor (result : option string) : Act CodeViewer :=
  fun s =>
    match screen_stack s with
    | top :: rest =>
        if String.eqb top "editor"
        then update_code result (set_screen_stack rest s)
        else (s, Done)
    | [] => (s, Done)
    end.

(** The command palette is dismissed: it leaves the screen stack. *)
Definition dismiss_palette : Act CodeViewer :=
  fun s =>
    match screen_stack s with
    | top :: rest =>
        if String.eqb top "--command-palette"
        then (set_screen_stack rest s, Done)
        else (s, Done)
    | [] => (s, Done)
    end.

(** What reaches the application from outside; a key press is one that is
    not consumed by the screen on top. *)
Inductive Event :=
| KeyPress (key : string)
| Hovered (message : HoverLine)
| EditorDismissed (result : option string)
| PaletteDismissed.

Definition handle (e : Event) : Act CodeViewer :=
  match e with
  | KeyPress key => on_key key
  | Hovered message => on_hover_line message
  | EditorDismissed result => dismiss_editor result
  | PaletteDismissed => dismiss_palette
  end.

(** A run of the event loop; the first exception ends it. *)
Definition run (es : list Event) : Act CodeViewer := for_each handle es.

(** ** Start-up *)

(** A fresh application: the class attributes and the composed widgets. *)
Definition new_app (code : string) : CodeViewer :=
  {| startup_code := code;
     show_source := true;
     show_tokens := false;
     show_ast := false;
     show_opt_ast := false;
     show_pseudo_bc := false;
     show_opt_pseudo_bc := false;
     show_code_obj := true;
     editor := {| editor_text := "" |};
     body := compose;
     grid_size_columns := None;
     screen_stack := [] |}.

(** After the mount handler the framework initialises the reactive
    attributes: each watcher the class has runs once with the default. *)
Definition initialize_reactives : Act CodeViewer :=
  for_each (fun k s => call_watcher k (show k s) s) all_stages.

(** The reactive attributes are initialised whether or not the mount
    handler raised; the first exception is the one reported. *)
Definition startup : Act CodeViewer := and_also on_mount initialize_reactives.

(** The widgets that exist under the active version, in pipeline order. *)
Definition available (k : StageKind) : bool :=
  VERSION_3_13 || negb (needs_3_13 k).

Definition stages : list StageKind := filter (fun k => available k = true) all_stages.

(** The number of flags that are set. *)
Definition visible_count (s : CodeViewer) : nat :=
  length (filter (fun k => show k s = true) all_stages).

End Viewer.

Arguments Vertical W : clear implicits.
Arguments CodeViewer W : clear implicits.

(** ** The toolchain, and two widgets

    The lexer, parser and compiler behind the widgets are Python's own; a
    stage either yields its items or rejects the source with a message. *)

Record StageItem := {
  display_text : string;
  source_line : option Z;
}.

Definition Toolchain : Type := string -> StageKind -> list StageItem + string.

(** *** A recording widget

    It keeps, in order, the calls it received; [set_code] raises when the
    toolchain rejects the source for the widget's stage. *)

Inductive Call :=
| Constructed (k : StageKind)
| SetCode (code : string)
| Highlight (line : Z).

Record Recorder := {
  recorder_stage : StageKind;
  calls : list Call;
}.

Definition record (c : Call) (w : Recorder) : Recorder :=
  {| recorder_stage := recorder_stage w; calls := calls w ++ [c] |}.

Definition stage_outcome (tc : Toolchain) (code : string) (k : StageKind)
  : outcome :=
  match tc code k with
  | inl _ => Done
  | inr message => Raise (CompilationFailed k message)
  end.

(** The Source widget is taken to be the one that carries the class
    [editor]. *)
Definition recorder_widget (tc : Toolchain) : Widget Recorder :=
  {| widget_new k := {| recorder_stage := k; calls := [Constructed k] |};
     widget_set_code code w :=
       (record (SetCode code) w, stage_outcome tc code (recorder_stage w));
     widget_highlight line w := (record (Highlight line) w, Done);
     widget_has_class cls w :=
       String.eqb cls "editor" && bool_decide (recorder_stage w = Source) |}.

(** *** The panel of the specification *)

(** Modelled from the spec: PositionIndex ([build], [lookup]), which the
    widget modules absent from the sources would provide: the map from a
    source line to the indices of the items attributed to it, in order; an
    item without a line is in no entry, a line without items looks up to the
    empty list. *)
Fixpoint build_from (i : nat) (items : list StageItem) : gmap Z (list nat) :=
  match items with
  | [] => ∅
  | it :: rest =>
      let m := build_from (S i) rest in
      match source_line it with
      | Some line => <[line := i :: default [] (m !! line)]> m
      | None => m
      end
  end.

Definition build (items : list StageItem) : gmap Z (list nat) :=
  build_from 0 items.

Definition lookup_line (line : Z) (index : gmap Z (list nat)) : list nat :=
  default [] (index !! line).

(** Modelled from the spec: PanelView together with the StageArtifact it
    shows (the widget classes are absent from the sources).  [origin] is the
    source text the artifact was computed from, [stale] the artifact's
    staleness mark, [diagnostic] the message of the failure that made it
    stale, [highlighted] the highlighted items. *)
Record PanelView := {
  kind : StageKind;
  origin : option string;
  items : list StageItem;
  index : gmap Z (list nat);
  stale : bool;
  diagnostic : option string;
  highlighted : list nat;
}.

Definition new_panel (k : StageKind) : PanelView :=
  {| kind := k; origin := None; items := []; index := ∅;
     stale := false; diagnostic := None; highlighted := [] |}.

(** Modelled from the spec: [set_content], the panel's share of a successful
    set_source (the widget modules are absent): the artifact is replaced
    wholesale and the highlight, which referred to items of the old one, is
    cleared. *)
Definition set_content (code : string) (its : list StageItem) (p : PanelView)
  : PanelView :=
  {| kind := kind p; origin := Some code; items := its; index := build its;
     stale := false; diagnostic := None; highlighted := [] |}.

(** Modelled from the spec: [highlight(item_indices)] replaces the
    highlighted items (none when the line has no item). *)
Definition highlight (indices : list nat) (p : PanelView) : PanelView :=
  {| kind := kind p; origin := origin p; items := items p; index := index p;
     stale := stale p; diagnostic := diagnostic p; highlighted := indices |}.

(** Modelled from the spec: the panel's share of a failed set_source: the
    prior artifact is retained untouched, marked stale, and the message is
    exposed. *)
Definition mark_stale (message : string) (p : PanelView) : PanelView :=
  {| kind := kind p; origin := origin p; items := items p; index := index p;
     stale := true; diagnostic := Some message;
     highlighted := highlighted p |}.

(** Modelled from the spec: a widget's [set_code] (absent from the sources)
    runs the toolchain for its stage (ToolchainAdapter.run).  The viewer's
    [set_code] has no handler of its own, so the stage's failure, which the
    spec has retained at the controller and never escaping it, is handled
    here: a rejected source marks the panel stale instead of raising. *)
Definition panel_set_code (tc : Toolchain) (code : string) (p : PanelView)
  : PanelView * outcome :=
  match tc code (kind p) with
  | inl its => (set_content code its p, Done)
  | inr message => (mark_stale message p, Done)
  end.

(** The Source panel is taken to be the one that carries the class
    [editor]. *)
Definition panel_widget (tc : Toolchain) : Widget PanelView :=
  {| widget_new := new_panel;
     widget_set_code := panel_set_code tc;
     widget_highlight line p :=
       (highlight (lookup_line line (index p)) p, Done);
     widget_has_class cls p :=
       String.eqb cls "editor" && bool_decide (kind p = Source) |}.

(** *** A small toolchain for examples

    Every stage shows the whole text as one item of line 1; the text ["1 +"]
    passes the lexer and is rejected from the parser on. *)
Definition rejected_from_parser (k : StageKind) : bool :=
  match k with
  | Source | Tokens => false
  | _ => true
  end.

Definition toy_toolchain : Toolchain :=
  fun code k =>
    if String.eqb code "1 +" && rejected_from_parser k
    then inr "invalid syntax"
    else inl [ {| display_text := code; source_line := Some 1 |} ].

(** The child widget found under a stage's id. *)
Definition widget_of {W} (k : StageKind) (s : CodeViewer W) : option W :=
  child <$> body s !! widget_id k.

(** Every widget of the active version is in the DOM. *)
Definition mounted {W} (v : bool) (s : CodeViewer W) : Prop :=
  ∀ k, available v k = true → is_Some (body s !! widget_id k).

(** The action that toggles a stage. *)
Definition toggle_of (k : StageKind) : Action :=
  match k with
  | Source => toggle_source
  | Tokens => toggle_tokens
  | AST => toggle_ast
  | OptimizedAST => toggle_opt_ast
  | PseudoBytecode => toggle_pseudo_bc
  | OptimizedPseudoBytecode => toggle_opt_pseudo_bc
  | FinalBytecode => toggle_code_obj
  end.

(** Example applications over the small toolchain, started on a one-line
    program. *)
Definition toy_recorder : Widget Recorder := recorder_widget toy_toolchain.

Definition toy_panel : Widget PanelView := panel_widget toy_toolchain.

Definition recorded_app (v : bool) : CodeViewer Recorder :=
  fst (startup (H := toy_recorder) v (new_app (H := toy_recorder) v "a = 1")).

Definition panel_app (v : bool) : CodeViewer PanelView :=
  fst (startup (H := toy_panel) v (new_app (H := toy_panel) v "a = 1")).


(** ** Relations between two states of the application *)

Section Observations.
Context {W : Type}.
Implicit Types s : CodeViewer W.
Implicit Types m : W -> W * outcome.

(** A method called on the widgets of a list of ids, in order. *)
Definition call_all m (ids : list string) : Act (CodeViewer W) :=
  for_each (fun id => call id m) ids.

(** What a handler leaves alone when it only calls widget methods. *)
Definition same_outside_widgets s s' : Prop :=
  startup_code s' = startup_code s
  ∧ (∀ k, show k s' = show k s)
  ∧ editor s' = editor s
  ∧ grid_size_columns s' = grid_size_columns s
  ∧ screen_stack s' = screen_stack s
  ∧ (∀ id, display <$> body s' !! id = display <$> body s !! id).

(** The widget under [id] went through the method [m], which returned
    normally. *)
Definition went_through m s s' (id : string) : Prop :=
  ∃ p w, body s !! id = Some p ∧ m (child p) = (w, Done)
         ∧ body s' !! id = Some (set_child w p).

(** The method [m] raised [e] on the widget under [id], or the query found
    no such widget. *)
Definition failed_at m s s' (id : string) (e : exn) : Prop :=
  (query_one id s = None ∧ body s' !! id = body s !! id
   ∧ e = NoMatches ("#" ++ id))
  ∨ (∃ p w, query_one id s = Some p ∧ m (child p) = (w, Raise e)
            ∧ body s' !! id = Some (set_child w p)).

(** The same ids are in the DOM. *)
Definition same_ids s s' : Prop :=
  ∀ id, is_Some (body s' !! id) ↔ is_Some (body s !! id).

(** The editor and every widget are the same. *)
Definition same_widgets s s' : Prop :=
  editor s' = editor s ∧ ∀ k, widget_of k s' = widget_of k s.
End Observations.

(** The method the hover handler calls on each widget. *)
Definition highlight_call {W} `{Widget W} (message : HoverLine)
  : W -> W * outcome :=
  widget_highlight (lineno message).

(** The code an event hands to [set_code], when it does: the editor, on top
    of the stack, is dismissed with a string. *)
Definition code_passed {W} (e : Event) (s : CodeViewer W) : option string :=
  match e with
  | EditorDismissed (Some c) =>
      match screen_stack s with
      | top :: _ => if String.eqb top "editor" then Some c else None
      | [] => None
      end
  | _ => None
  end.

(** The code most recently handed to [set_code] along a run of the event
    loop that started with [current]. *)
Fixpoint last_code_passed {W} `{Widget W} (v : bool) (es : list Event)
    (s : CodeViewer W) (current : string) : string :=
  match es with
  | [] => current
  | e :: es' =>
      let current' := default current (code_passed e s) in
      match handle v e s with
      | (s1, Done) => last_code_passed v es' s1 current'
      | (_, Raise _) => current'
      end
  end.

(** ** The layout, as a user sees it *)

(** The container of every stage of the active version is displayed exactly
    when the stage's flag is set, and the columns of the body are the minimum
    of the number of set flags and three. *)
Definition layout_ok {W} (v : bool) (s : CodeViewer W) : Prop :=
  (∀ k, available v k = true →
        display <$> body s !! widget_id k
        = Some (if show k s then block else none))
  ∧ grid_size_columns s = Some (Z.min (Z.of_nat (visible_count s)) 3).

(** A toggle with the flag's new value made explicit: the flag is stored,
    then its watcher runs. *)
Definition toggled {W} (k : StageKind) (b : bool) (s : CodeViewer W)
  : CodeViewer W :=
  (update_visibility (widget_id k) b (set_show k b s)).1.

(** The one event that takes the layout out of line with the flags: the
    toggle key of a stage, pressed while another screen is pushed over the
    main one. *)
Definition toggle_behind_screen {W} `{Widget W} (v : bool) (e : Event)
    (s : CodeViewer W)
  : Prop :=
  screen_stack s ≠ []
  ∧ ∃ key k, e = KeyPress key
             ∧ lookup_binding (BINDINGS v) key = Some (toggle_of k)
             ∧ available v k = true
             ∧ handle v e s
               = (set_show k (negb (show k s)) s,
                  Raise (NoMatches ("#" ++ widget_id k))).

(** * Properties *)

(** ** Sequencing *)

Section Sequencing.
Context {S : Type}.
Implicit Types a b c : Act S.

Lemma and_then_done a b s s1 :
  a s = (s1, Done) → (a ;; b) s = b s1.
Proof. unfold and_then. by intros ->. Qed.

Lemma and_then_raise a b s s1 e :
  a s = (s1, Raise e) → (a ;; b) s = (s1, Raise e).
Proof. unfold and_then. by intros ->. Qed.

Lemma and_then_assoc a b c s :
  ((a ;; b) ;; c) s = (a ;; (b ;; c)) s.
Proof. unfold and_then. destruct (a s) as [s1 [|e]]; reflexivity. Qed.

Lemma and_then_skip a s : (a ;; skip) s = a s.
Proof. unfold and_then, skip. destruct (a s) as [s1 [|e]]; reflexivity. Qed.

Lemma and_then_ext a b b' s :
  (∀ s1, b s1 = b' s1) → (a ;; b) s = (a ;; b') s.
Proof. intros Hb. unfold and_then. destruct (a s) as [s1 [|e]]; auto. Qed.

Lemma for_each_app {A} (f : A → Act S) (l1 l2 : list A) s :
  for_each f (l1 ++ l2) s = (for_each f l1 ;; for_each f l2) s.
Proof.
  revert s. induction l1 as [|x l1 IH]; intros s; simpl.
  - reflexivity.
  - rewrite and_then_assoc. apply and_then_ext, IH.
Qed.

(** An invariant kept by every step, raising or not, is kept by the
    loop. *)
Lemma for_each_invariant {A} (f : A → Act S) (P : S → Prop) (l : list A) :
  (∀ x s, P s → P (f x s).1) → ∀ s, P s → P (for_each f l s).1.
Proof.
  intros Hf. induction l as [|x l IH]; intros s Hs; simpl; [done|].
  unfold and_then. specialize (Hf x s Hs).
  destruct (f x s) as [s1 [|e]]; simpl in *; auto.
Qed.

Lemma and_also_fst (a b : Act S) s : (and_also a b s).1 = (b (a s).1).1.
Proof.
  unfold and_also. destruct (a s) as [s1 o1]. simpl. by destruct (b s1).
Qed.

Lemma and_also_done (a b : Act S) s s' :
  and_also a b s = (s', Done) → ∃ s1, a s = (s1, Done) ∧ b s1 = (s', Done).
Proof.
  unfold and_also. destruct (a s) as [s1 o1]. destruct (b s1) as [s2 o2] eqn:Hb.
  destruct o1; [|done]. intros [= -> ->]. exists s1. by rewrite Hb.
Qed.
End Sequencing.

(** ** Stage ids *)

Lemma widget_id_inj k1 k2 : widget_id k1 = widget_id k2 → k1 = k2.
Proof. destruct k1, k2; simpl; intros Heq; first [reflexivity | discriminate]. Qed.

Lemma stages_full : stages true = all_stages.
Proof. reflexivity. Qed.

Lemma stages_reduced : stages false = [Source; Tokens; AST; FinalBytecode].
Proof. reflexivity. Qed.

Lemma elem_of_stages v k : k ∈ stages v ↔ available v k = true.
Proof.
  unfold stages. rewrite list_elem_of_filter. split; [tauto|].
  intros Hk. split; [done|]. destruct k; unfold all_stages; set_solver.
Qed.

Lemma stages_NoDup v : NoDup (stages v).
Proof. destruct v; compute_done. Qed.

Lemma stage_ids_NoDup v : NoDup (widget_id <$> stages v).
Proof. destruct v; compute_done. Qed.

(** The version test on a few interpreters. *)
Example version_flag_examples :
  version_at_least_3_13 3 12 = false
  ∧ version_at_least_3_13 3 13 = true
  ∧ version_at_least_3_13 4 0 = true
  ∧ version_at_least_3_13 2 7 = false.
Proof. by vm_compute. Qed.

(** ** The position index

    An index found under a line is that of an item attributed to the line,
    and every such item is found; an item without a line is under no line. *)

Lemma elem_of_lookup_line_build_from (its : list StageItem) n line i :
  i ∈ lookup_line line (build_from n its)
  ↔ (n ≤ i)%nat
    ∧ ∃ it, its !! (i - n)%nat = Some it ∧ source_line it = Some line.
Proof.
  revert n. induction its as [|it rest IH]; intros n; simpl.
  - unfold lookup_line. rewrite lookup_empty. simpl. split.
    + by intros ?%elem_of_nil.
    + by intros (_ & it & ? & _).
  - assert (i ∈ lookup_line line (build_from (S n) rest)
            ↔ (n ≤ i)%nat ∧ i ≠ n
              ∧ ∃ it', (it :: rest) !! (i - n)%nat = Some it'
                       ∧ source_line it' = Some line) as Hrest.
    { rewrite IH. split.
      - intros (Hle & it' & Hit' & Hs). split_and!; [lia..|].
        exists it'. by replace (i - n)%nat with (S (i - S n)) by lia.
      - intros (Hle & Hne & it' & Hit' & Hs). split; [lia|].
        exists it'. by replace (i - n)%nat with (S (i - S n)) in Hit' by lia. }
    destruct (source_line it) as [l|] eqn:Hl.
    + unfold lookup_line in *. destruct (decide (l = line)) as [->|Hne].
      * rewrite lookup_insert_eq. simpl. rewrite elem_of_cons, Hrest.
        split.
        -- intros [->|(Hle & _ & Hit)]; [|done].
           split; [lia|]. exists it. by rewrite Nat.sub_diag.
        -- intros (Hle & Hit). destruct (decide (i = n)); [by left|by right].
      * rewrite lookup_insert_ne by done. rewrite Hrest. split.
        -- by intros (Hle & _ & Hit).
        -- intros (Hle & it' & Hit' & Hs). split_and!; [done| |by eauto].
           intros ->. rewrite Nat.sub_diag in Hit'. simpl in Hit'. congruence.
    + rewrite Hrest. split.
      * by intros (Hle & _ & Hit).
      * intros (Hle & it' & Hit' & Hs). split_and!; [done| |by eauto].
        intros ->. rewrite Nat.sub_diag in Hit'. simpl in Hit'. congruence.
Qed.

Lemma elem_of_lookup_line_build (its : list StageItem) line i :
  i ∈ lookup_line line (build its)
  ↔ ∃ it, its !! i = Some it ∧ source_line it = Some line.
Proof.
  unfold build. rewrite elem_of_lookup_line_build_from, Nat.sub_0_r.
  split; [by intros [_ ?] | intros ?; split; [lia|done]].
Qed.

(** ** Calls on widgets *)

Section Calls.
Context {W : Type} `{Widget W}.
Implicit Types s : CodeViewer W.
Implicit Types m : W → W * outcome.

Lemma same_outside_widgets_refl s : same_outside_widgets s s.
Proof. by repeat split. Qed.

Lemma same_outside_widgets_trans s1 s2 s3 :
  same_outside_widgets s1 s2 → same_outside_widgets s2 s3 →
  same_outside_widgets s1 s3.
Proof.
  intros (A1 & A2 & A3 & A4 & A5 & A6) (B1 & B2 & B3 & B4 & B5 & B6).
  repeat split; try congruence; intros x; by rewrite ?B2, ?B6.
Qed.

Lemma set_body_id s : set_body (body s) s = s.
Proof. by destruct s. Qed.

(** *** The query *)

Lemma query_one_main id s : screen_stack s = [] → query_one id s = body s !! id.
Proof. unfold query_one. by intros ->. Qed.

Lemma query_one_pushed id s : screen_stack s ≠ [] → query_one id s = None.
Proof. unfold query_one. by destruct (screen_stack s). Qed.

Lemma query_one_Some id s p :
  query_one id s = Some p ↔ screen_stack s = [] ∧ body s !! id = Some p.
Proof.
  unfold query_one. destruct (screen_stack s); [|split; [done|by intros []]].
  tauto.
Qed.

Lemma query_one_set_body id b s :
  query_one id (set_body b s)
  = match screen_stack s with [] => b !! id | _ :: _ => None end.
Proof. reflexivity. Qed.

(** *** One call *)

Lemma call_None id m s :
  query_one id s = None → call id m s = (s, Raise (NoMatches ("#" ++ id))).
Proof. unfold call. by intros ->. Qed.

Lemma call_Some id m s p :
  query_one id s = Some p →
  call id m s
  = (set_body (<[id := set_child (m (child p)).1 p]> (body s)) s,
     (m (child p)).2).
Proof. unfold call. intros ->. by destruct (m (child p)). Qed.

Lemma call_pushed id m s :
  screen_stack s ≠ [] → call id m s = (s, Raise (NoMatches ("#" ++ id))).
Proof. intros Hst. by apply call_None, query_one_pushed. Qed.

Lemma call_screen_stack id m s :
  screen_stack (call id m s).1 = screen_stack s.
Proof.
  destruct (query_one id s) as [p|] eqn:Hp.
  - by rewrite (call_Some _ _ _ _ Hp).
  - by rewrite (call_None _ _ _ Hp).
Qed.

Lemma call_lookup_ne id id' m s :
  id ≠ id' → body (call id m s).1 !! id' = body s !! id'.
Proof.
  intros Hne. destruct (query_one id s) as [p|] eqn:Hp.
  - rewrite (call_Some _ _ _ _ Hp). simpl. by rewrite lookup_insert_ne.
  - by rewrite (call_None _ _ _ Hp).
Qed.

Lemma call_is_Some id id' m s :
  is_Some (body (call id m s).1 !! id') ↔ is_Some (body s !! id').
Proof.
  destruct (query_one id s) as [p|] eqn:Hp.
  - rewrite (call_Some _ _ _ _ Hp). simpl.
    apply query_one_Some in Hp as [_ Hp].
    destruct (decide (id = id')) as [<-|Hne].
    + rewrite lookup_insert_eq, Hp. split; eauto.
    + by rewrite lookup_insert_ne.
  - by rewrite (call_None _ _ _ Hp).
Qed.

Lemma call_same_outside id m s : same_outside_widgets s (call id m s).1.
Proof.
  destruct (query_one id s) as [p|] eqn:Hp.
  - rewrite (call_Some _ _ _ _ Hp).
    apply query_one_Some in Hp as [_ Hp].
    unfold same_outside_widgets; simpl. split_and!; try done.
    intros id'. destruct (decide (id = id')) as [<-|Hne].
    + by rewrite lookup_insert_eq, Hp.
    + by rewrite lookup_insert_ne.
  - rewrite (call_None _ _ _ Hp). apply same_outside_widgets_refl.
Qed.

(** A method that leaves the widget as it is leaves the application as it
    is. *)
Lemma call_fixed id m s p :
  query_one id s = Some p → m (child p) = (child p, Done) →
  call id m s = (s, Done).
Proof.
  intros Hp Hm. rewrite (call_Some _ _ _ _ Hp), Hm. simpl.
  apply query_one_Some in Hp as [_ Hp].
  replace (set_child (child p) p) with p by by destruct p.
  by rewrite (insert_id _ _ _ Hp), set_body_id.
Qed.

(** *** A method called on a list of ids, in order *)

Lemma call_all_cons m i ids s :
  call_all m (i :: ids) s = (call i m ;; call_all m ids) s.
Proof. reflexivity. Qed.

Lemma call_all_screen_stack m ids s :
  screen_stack (call_all m ids s).1 = screen_stack s.
Proof.
  revert s. induction ids as [|i ids IH]; intros s; [done|].
  rewrite call_all_cons. unfold and_then.
  pose proof (call_screen_stack i m s) as Hst.
  destruct (call i m s) as [s1 [|e]]; simpl in *; [|done].
  by rewrite IH.
Qed.

Lemma call_all_lookup_other m ids s id :
  id ∉ ids → body (call_all m ids s).1 !! id = body s !! id.
Proof.
  revert s. induction ids as [|i ids IH]; intros s Hid; [done|].
  apply not_elem_of_cons in Hid as [Hne Hid].
  pose proof (call_lookup_ne i id m s (not_eq_sym Hne)) as Hl.
  rewrite call_all_cons. unfold and_then.
  destruct (call i m s) as [s1 [|e]]; simpl in *.
  - by rewrite IH.
  - done.
Qed.

Lemma call_all_is_Some m ids s id :
  is_Some (body (call_all m ids s).1 !! id) ↔ is_Some (body s !! id).
Proof.
  revert s. induction ids as [|i ids IH]; intros s; [done|].
  pose proof (call_is_Some i id m s) as Hl.
  rewrite call_all_cons. unfold and_then.
  destruct (call i m s) as [s1 [|e]]; simpl in *.
  - by rewrite IH.
  - done.
Qed.

Lemma call_all_same_outside m ids s :
  same_outside_widgets s (call_all m ids s).1.
Proof.
  revert s. induction ids as [|i ids IH]; intros s.
  - apply same_outside_widgets_refl.
  - pose proof (call_same_outside i m s) as Hl.
    rewrite call_all_cons. unfold and_then.
    destruct (call i m s) as [s1 [|e]]; simpl in *.
    + eapply same_outside_widgets_trans; [exact Hl | apply IH].
    + done.
Qed.

(** With a screen pushed over the main one the first query fails. *)
Lemma call_all_pushed m i ids s :
  screen_stack s ≠ [] →
  call_all m (i :: ids) s = (s, Raise (NoMatches ("#" ++ i))).
Proof.
  intros Hst. rewrite call_all_cons. unfold and_then.
  by rewrite call_pushed.
Qed.

Lemma call_all_done m ids s s' :
  NoDup ids → call_all m ids s = (s', Done) →
  ∀ id, id ∈ ids → went_through m s s' id.
Proof.
  revert s. induction ids as [|i ids IH]; intros s Hnd Hrun id Hid.
  { by apply elem_of_nil in Hid. }
  apply NoDup_cons in Hnd as [Hi Hnd].
  rewrite call_all_cons in Hrun. unfold and_then in Hrun.
  destruct (call i m s) as [s1 [|e]] eqn:Hc; [|done].
  destruct (query_one i s) as [p|] eqn:Hq;
    [|by rewrite (call_None _ _ _ Hq) in Hc].
  rewrite (call_Some _ _ _ _ Hq) in Hc.
  apply query_one_Some in Hq as [_ Hp].
  destruct (m (child p)) as [w o] eqn:Hm. simpl in Hc.
  injection Hc as <- ->.
  apply elem_of_cons in Hid as [->|Hid].
  - exists p, w. split_and!; [done..|].
    replace s' with (call_all m ids
      (set_body (<[i:=set_child w p]> (body s)) s)).1 by by rewrite Hrun.
    rewrite call_all_lookup_other by done. simpl. apply lookup_insert_eq.
  - destruct (IH _ Hnd Hrun id Hid) as (p' & w' & Hp' & Hm' & Hs').
    exists p', w'. split_and!; [|done..].
    simpl in Hp'. rewrite lookup_insert_ne in Hp'; [done|].
    intros ->. done.
Qed.

Lemma call_all_raise m ids s s' e :
  NoDup ids → call_all m ids s = (s', Raise e) →
  ∃ (pre : list string) (id : string) (post : list string),
    ids = (pre ++ id :: post)%list
    ∧ (∀ j, j ∈ pre → went_through m s s' j)
    ∧ failed_at m s s' id e
    ∧ (∀ j, j ∈ post → body s' !! j = body s !! j).
Proof.
  revert s. induction ids as [|i ids IH]; intros s Hnd Hrun; [done|].
  apply NoDup_cons in Hnd as [Hi Hnd].
  rewrite call_all_cons in Hrun. unfold and_then in Hrun.
  destruct (query_one i s) as [p|] eqn:Hq.
  - rewrite (call_Some _ _ _ _ Hq) in Hrun.
    pose proof Hq as [Hst Hp]%query_one_Some.
    destruct (m (child p)) as [w [|e']] eqn:Hm; simpl in Hrun.
    + destruct (IH _ Hnd Hrun) as (pre & id & post & -> & Hpre & Hat & Hpost).
      exists (i :: pre), id, post. split_and!; [done| | |].
      * intros j [->|Hj]%elem_of_cons.
        -- exists p, w. split_and!; [done..|].
           replace s' with (call_all m (pre ++ id :: post)%list
             (set_body (<[i:=set_child w p]> (body s)) s)).1
             by by rewrite Hrun.
           rewrite call_all_lookup_other by done. simpl.
           apply lookup_insert_eq.
        -- destruct (Hpre j Hj) as (p' & w' & Hp' & Hm' & Hs').
           exists p', w'. split_and!; [|done..].
           simpl in Hp'. rewrite lookup_insert_ne in Hp'; [done|].
           intros ->. apply Hi. set_solver.
      * assert (i ≠ id) as Hne by (intros ->; apply Hi; set_solver).
        destruct Hat as [(Hn & Hn' & ->)|(p' & w' & Hp' & Hm' & Hs')].
        -- left. split_and!; [|by rewrite Hn'; simpl; rewrite lookup_insert_ne|done].
           rewrite query_one_set_body in Hn. unfold query_one. rewrite Hst in *.
           by rewrite lookup_insert_ne in Hn.
        -- right. exists p', w'. split_and!; [|done..].
           rewrite query_one_set_body in Hp'. unfold query_one. rewrite Hst in *.
           by rewrite lookup_insert_ne in Hp'.
      * intros j Hj. rewrite (Hpost j Hj). simpl.
        apply lookup_insert_ne. intros ->. apply Hi. set_solver.
    + injection Hrun as <- ->.
      exists [], i, ids. split_and!; [done| | |].
      * intros j Hj. by apply elem_of_nil in Hj.
      * right. exists p, w. simpl. by rewrite lookup_insert_eq.
      * intros j Hj. simpl. apply lookup_insert_ne. by intros ->.
  - rewrite (call_None _ _ _ Hq) in Hrun. injection Hrun as <- <-.
    exists [], i, ids. split_and!; [done| | |done].
    + intros j Hj. by apply elem_of_nil in Hj.
    + by left.
Qed.
End Calls.

(** ** The two fan-outs: [set_code] and [on_hover_line] *)

Section FanOut.
Context {W : Type} `{Widget W}.
Implicit Types s : CodeViewer W.

Ltac case_calls :=
  repeat match goal with
    | |- context [match call ?i ?m ?s with _ => _ end] =>
        destruct (call i m s) as [? [|?]]; simpl
    end.

(** The hover handler calls [highlight] on the widget of each stage of the
    active version, in pipeline order. *)
Lemma on_hover_line_stages v message s :
  on_hover_line v message s
  = call_all (highlight_call message) (widget_id <$> stages v) s.
Proof.
  destruct v; unfold on_hover_line, call_all, highlight_call; simpl;
    unfold and_then, when, skip; simpl; case_calls; reflexivity.
Qed.

(** [set_code] hands the code to the editor, then to the widget of each
    stage of the active version, in pipeline order. *)
Lemma set_code_stages v code s :
  set_code v code s
  = call_all (widget_set_code code) (widget_id <$> stages v)
      (set_editor (editor_set_code code (editor s)) s).
Proof.
  destruct v; unfold set_code, call_all; simpl;
    unfold and_then, when, skip; simpl; case_calls; reflexivity.
Qed.

Lemma stage_ids_cons v :
  ∃ rest, widget_id <$> stages v = "source" :: rest.
Proof. destruct v; eexists; reflexivity. Qed.

Lemma mounted_ids v s id :
  mounted v s → id ∈ widget_id <$> stages v → is_Some (body s !! id).
Proof.
  intros Hm (k & -> & Hk)%list_elem_of_fmap. by apply Hm, elem_of_stages.
Qed.

(** A method that does not raise, called on widgets that are all there
    with the main screen on top, returns normally. *)
Lemma call_all_total (m : W → W * outcome) ids s :
  (∀ w, (m w).2 = Done) →
  screen_stack s = [] →
  (∀ id, id ∈ ids → is_Some (body s !! id)) →
  (call_all m ids s).2 = Done.
Proof.
  intros Hm. revert s.
  induction ids as [|i ids IH]; intros s Hst Hs; [done|].
  destruct (Hs i) as [p Hp]; [set_solver|].
  rewrite call_all_cons. unfold and_then.
  rewrite (call_Some i m s p) by (by apply query_one_Some).
  rewrite Hm. apply IH; [done|].
  intros id Hid. simpl.
  destruct (decide (i = id)) as [<-|Hne].
  - rewrite lookup_insert_eq. eauto.
  - rewrite lookup_insert_ne by done. apply Hs. set_solver.
Qed.

(** Calling an idempotent method on every widget of a list is
    idempotent, raising or not. *)
Lemma call_all_idempotent (f : W → W) ids s :
  (∀ w, f (f w) = f w) → NoDup ids →
  call_all (fun w => (f w, Done)) ids
    (call_all (fun w => (f w, Done)) ids s).1
  = call_all (fun w => (f w, Done)) ids s.
Proof.
  intros Hf. set (m := fun w => (f w, Done)).
  revert s. induction ids as [|i ids IH]; intros s Hnd; [done|].
  apply NoDup_cons in Hnd as [Hi Hnd].
  rewrite (call_all_cons m i ids s). unfold and_then.
  destruct (query_one i s) as [p|] eqn:Hq.
  - rewrite (call_Some _ _ _ _ Hq).
    pose proof Hq as [Hst Hp]%query_one_Some.
    change (m (child p)).2 with Done. change (m (child p)).1 with (f (child p)).
    set (s1 := set_body _ s).
    specialize (IH s1 Hnd).
    destruct (call_all m ids s1) as [s2 o] eqn:Hrun. simpl in IH. simpl.
    assert (query_one i s2 = Some (set_child (f (child p)) p)) as Hs2.
    { apply query_one_Some. split.
      - replace s2 with (call_all m ids s1).1 by by rewrite Hrun.
        by rewrite call_all_screen_stack.
      - replace s2 with (call_all m ids s1).1 by by rewrite Hrun.
        rewrite call_all_lookup_other by done. apply lookup_insert_eq. }
    rewrite (call_all_cons m i ids s2).
    erewrite and_then_done; [exact IH|].
    eapply call_fixed; [exact Hs2|]. unfold m. simpl. by rewrite Hf.
  - rewrite (call_None _ _ _ Hq). simpl.
    rewrite (call_all_cons m i ids s).
    unfold and_then. by rewrite (call_None _ _ _ Hq).
Qed.
End FanOut.

(** ** Visibility flags, watchers and bindings *)

Section Visibility.
Context {W : Type} `{Widget W}.
Implicit Types s : CodeViewer W.

Lemma visible_panels_count s : visible_panels s = Z.of_nat (visible_count s).
Proof.
  destruct s as [c b1 b2 b3 b4 b5 b6 b7 e b g st].
  destruct b1, b2, b3, b4, b5, b6, b7; reflexivity.
Qed.

Lemma show_set_show k k' b s :
  show k' (set_show k b s) = if decide (k' = k) then b else show k' s.
Proof. destruct k'; reflexivity. Qed.

Lemma update_visibility_Some id b s p :
  query_one id s = Some p →
  update_visibility id b s
  = (set_grid_size_columns (Z.min (visible_panels s) 3)
       (set_body (<[id := set_display (if b then block else none) p]>
                    (body s)) s),
     Done).
Proof. unfold update_visibility. by intros ->. Qed.

Lemma update_visibility_None id b s :
  query_one id s = None →
  update_visibility id b s = (s, Raise (NoMatches ("#" ++ id))).
Proof. unfold update_visibility. by intros ->. Qed.

Lemma update_visibility_show id b s k :
  show k (update_visibility id b s).1 = show k s.
Proof.
  destruct (query_one id s) as [p|] eqn:Hp.
  - rewrite (update_visibility_Some _ _ _ _ Hp). by destruct k.
  - by rewrite (update_visibility_None _ _ _ Hp).
Qed.

(** Whenever [update_visibility] completes, the columns of [#body] are
    the minimum of the number of set flags and three. *)
Lemma update_visibility_columns id b s s' :
  update_visibility id b s = (s', Done) →
  grid_size_columns s' = Some (Z.min (Z.of_nat (visible_count s')) 3).
Proof.
  destruct (query_one id s) as [p|] eqn:Hp.
  - rewrite (update_visibility_Some _ _ _ _ Hp). intros [= <-].
    rewrite <- visible_panels_count. reflexivity.
  - by rewrite (update_visibility_None _ _ _ Hp).
Qed.

Lemma call_watcher_available v k b s :
  available v k = true →
  call_watcher v k b s = update_visibility (widget_id k) b s.
Proof. destruct v, k; simpl; first [reflexivity | discriminate]. Qed.

Lemma call_watcher_unavailable v k b s :
  available v k = false → call_watcher v k b s = (s, Done).
Proof. destruct v, k; simpl; first [reflexivity | discriminate]. Qed.

Lemma call_watcher_show v k b s k' :
  show k' (call_watcher v k b s).1 = show k' s.
Proof.
  destruct (available v k) eqn:Hk.
  - rewrite call_watcher_available by done. apply update_visibility_show.
  - by rewrite call_watcher_unavailable.
Qed.

Lemma assign_show v k b s k' :
  show k' (assign v k b s).1 = if decide (k' = k) then b else show k' s.
Proof.
  unfold assign. destruct (Bool.eqb (show k s) b) eqn:Hb; simpl.
  - apply Bool.eqb_prop in Hb. case_decide; congruence.
  - rewrite call_watcher_show. apply show_set_show.
Qed.

Lemma assign_negb v k s :
  assign v k (negb (show k s)) s
  = call_watcher v k (negb (show k s)) (set_show k (negb (show k s)) s).
Proof. unfold assign. by destruct (show k s). Qed.

Lemma run_action_toggle v k s :
  run_action v (toggle_of k) s = assign v k (negb (show k s)) s.
Proof. by destruct k. Qed.

Lemma update_visibility_pushed id b s :
  screen_stack s ≠ [] →
  update_visibility id b s = (s, Raise (NoMatches ("#" ++ id))).
Proof. intros Hst. by apply update_visibility_None, query_one_pushed. Qed.

Lemma update_visibility_screen_stack id b s :
  screen_stack (update_visibility id b s).1 = screen_stack s.
Proof.
  destruct (query_one id s) as [p|] eqn:Hp.
  - by rewrite (update_visibility_Some _ _ _ _ Hp).
  - by rewrite (update_visibility_None _ _ _ Hp).
Qed.

Lemma toggle_of_inj k1 k2 : toggle_of k1 = toggle_of k2 → k1 = k2.
Proof. destruct k1, k2; simpl; intros Heq; first [reflexivity | discriminate]. Qed.

(** *** Bindings *)

Lemma lookup_binding_elem bs key a :
  lookup_binding bs key = Some a → a ∈ (fun b => b.1.2) <$> bs.
Proof.
  induction bs as [|[[keys a'] d] bs IH]; simpl; [done|].
  rewrite elem_of_cons. destruct (existsb _ _).
  - intros [= ->]. by left.
  - intros Hl. right. by apply IH.
Qed.

(** Only toggles of stages of the active version are bound. *)
Lemma bound_toggle_available v key k :
  lookup_binding (BINDINGS v) key = Some (toggle_of k) →
  available v k = true.
Proof.
  destruct v; [done|].
  intros Hl%lookup_binding_elem. simpl in Hl.
  destruct k; simpl in *; first
    [ reflexivity
    | exfalso;
      repeat (apply elem_of_cons in Hl as [Hl|Hl]; [discriminate|]);
      by apply elem_of_nil in Hl ].
Qed.
Lemma lookup_binding_app bs1 bs2 key :
  lookup_binding (bs1 ++ bs2)%list key
  = match lookup_binding bs1 key with
    | Some a => Some a
    | None => lookup_binding bs2 key
    end.
Proof.
  induction bs1 as [|[[keys a] d] bs1 IH]; simpl; [done|].
  by destruct (existsb _ _).
Qed.

(** A key of the whole binding list that runs a toggle is one of the
    class's own. *)
Lemma all_bindings_toggle v key k :
  lookup_binding (all_bindings v) key = Some (toggle_of k) →
  lookup_binding (BINDINGS v) key = Some (toggle_of k).
Proof.
  unfold all_bindings. rewrite lookup_binding_app.
  destruct (lookup_binding (BINDINGS v) key) as [a|]; [done|].
  intros Hl%lookup_binding_elem. simpl in Hl. exfalso.
  destruct k; simpl in Hl;
    repeat (apply elem_of_cons in Hl as [Hl|Hl]; [discriminate|]);
    by apply elem_of_nil in Hl.
Qed.

(** What a bound key can run. *)
Lemma bound_action_cases v key a :
  lookup_binding (all_bindings v) key = Some a →
  a = quit ∨ a = open_editor ∨ a = command_palette
  ∨ ∃ k, a = toggle_of k ∧ available v k = true
         ∧ lookup_binding (BINDINGS v) key = Some (toggle_of k).
Proof.
  intros Hkey. destruct a; auto; right; right; right.
  - exists Source. pose proof (all_bindings_toggle v key Source Hkey).
    split_and!; [done| |done]. by eapply bound_toggle_available.
  - exists Tokens. pose proof (all_bindings_toggle v key Tokens Hkey).
    split_and!; [done| |done]. by eapply bound_toggle_available.
  - exists AST. pose proof (all_bindings_toggle v key AST Hkey).
    split_and!; [done| |done]. by eapply bound_toggle_available.
  - exists OptimizedAST.
    pose proof (all_bindings_toggle v key OptimizedAST Hkey).
    split_and!; [done| |done]. by eapply bound_toggle_available.
  - exists PseudoBytecode.
    pose proof (all_bindings_toggle v key PseudoBytecode Hkey).
    split_and!; [done| |done]. by eapply bound_toggle_available.
  - exists OptimizedPseudoBytecode.
    pose proof (all_bindings_toggle v key OptimizedPseudoBytecode Hkey).
    split_and!; [done| |done]. by eapply bound_toggle_available.
  - exists FinalBytecode.
    pose proof (all_bindings_toggle v key FinalBytecode Hkey).
    split_and!; [done| |done]. by eapply bound_toggle_available.
Qed.

Lemma show_set_screen_stack k st s : show k (set_screen_stack st s) = show k s.
Proof. by destruct k. Qed.

Lemma action_command_palette_show k s :
  show k (action_command_palette s).1 = show k s.
Proof.
  unfold action_command_palette. destruct (screen_stack s) as [|top rest].
  - apply show_set_screen_stack.
  - destruct (String.eqb top "--command-palette"); [done|].
    apply show_set_screen_stack.
Qed.
End Visibility.


(** ** What each handler leaves alone *)

Section Handlers.
Context {W : Type} `{Widget W}.
Implicit Types s : CodeViewer W.

Lemma set_code_same_outside v code s :
  same_outside_widgets
    (set_editor (editor_set_code code (editor s)) s) (set_code v code s).1.
Proof. rewrite set_code_stages. apply call_all_same_outside. Qed.

Lemma set_code_show v code s k : show k (set_code v code s).1 = show k s.
Proof.
  destruct (set_code_same_outside v code s) as (_ & Hshow & _).
  rewrite Hshow. by destruct k.
Qed.

Lemma set_code_editor v code s :
  editor_text (editor (set_code v code s).1) = code.
Proof.
  destruct (set_code_same_outside v code s) as (_ & _ & Hed & _).
  by rewrite Hed.
Qed.

Lemma on_hover_line_same_outside v message s :
  same_outside_widgets s (on_hover_line v message s).1.
Proof. rewrite on_hover_line_stages. apply call_all_same_outside. Qed.

Lemma update_code_show v result s k :
  show k (update_code v result s).1 = show k s.
Proof. destruct result; simpl; [apply set_code_show | done]. Qed.

Lemma dismiss_editor_show v result s k :
  show k (dismiss_editor v result s).1 = show k s.
Proof.
  unfold dismiss_editor. destruct (screen_stack s) as [|top rest]; [done|].
  destruct (String.eqb top "editor"); [|done].
  rewrite update_code_show. by destruct k.
Qed.

Lemma run_action_show v a s k :
  show k (run_action v a s).1 ≠ show k s → a = toggle_of k.
Proof.
  destruct a; cbn [run_action].
  1, 2: intros Hne; exfalso; apply Hne; by destruct k.
  8: by rewrite action_command_palette_show.
  all: unfold action_toggle_source, action_toggle_tokens, action_toggle_ast,
         action_toggle_opt_ast, action_toggle_pseudo_bc,
         action_toggle_opt_pseudo_bc, action_toggle_code_obj;
       rewrite assign_show; case_decide;
       [by subst | intros Hne; by destruct Hne].
Qed.

Lemma focus_editor_fst (s : CodeViewer W) : (focus_editor s).1 = s.
Proof.
  unfold focus_editor. destruct (screen_stack s); [|done].
  by destruct (existsb _ _).
Qed.

Lemma on_mount_fst v s :
  (on_mount v s).1 = (set_code v (startup_code s) s).1.
Proof.
  unfold on_mount, and_then.
  destruct (set_code v (startup_code s) s) as [s1 [|e]]; [|done].
  apply focus_editor_fst.
Qed.

Lemma dismiss_palette_show k s : show k (dismiss_palette s).1 = show k s.
Proof.
  unfold dismiss_palette. destruct (screen_stack s) as [|top rest]; [done|].
  destruct (String.eqb top "--command-palette"); [|done].
  apply show_set_screen_stack.
Qed.

(** A flag changes only when a key bound to its toggle is pressed. *)
Lemma handle_show_changes v e s k :
  show k (handle v e s).1 ≠ show k s →
  ∃ key, e = KeyPress key
         ∧ lookup_binding (BINDINGS v) key = Some (toggle_of k).
Proof.
  destruct e as [key|message|result|]; simpl.
  - unfold on_key.
    destruct (lookup_binding (all_bindings v) key) as [a|] eqn:Ha.
    + intros ->%run_action_show. apply all_bindings_toggle in Ha. eauto.
    + done.
  - destruct (on_hover_line_same_outside v message s) as (_ & Hshow & _).
    by rewrite Hshow.
  - by rewrite dismiss_editor_show.
  - by rewrite dismiss_palette_show.
Qed.

(** *** The widgets in the DOM stay the same ones *)

Lemma same_ids_trans s1 s2 s3 : same_ids s1 s2 → same_ids s2 s3 → same_ids s1 s3.
Proof. intros H12 H23 id. etrans; [apply H23 | apply H12]. Qed.

Lemma set_code_same_ids v code s : same_ids s (set_code v code s).1.
Proof. intros id. rewrite set_code_stages. by rewrite call_all_is_Some. Qed.

Lemma on_hover_line_same_ids v message s :
  same_ids s (on_hover_line v message s).1.
Proof. intros id. rewrite on_hover_line_stages. by rewrite call_all_is_Some. Qed.

Lemma update_visibility_same_ids id b s :
  same_ids s (update_visibility id b s).1.
Proof.
  intros id'. destruct (query_one id s) as [p|] eqn:Hp.
  - rewrite (update_visibility_Some _ _ _ _ Hp). simpl.
    apply query_one_Some in Hp as [_ Hp].
    destruct (decide (id = id')) as [<-|Hne].
    + rewrite lookup_insert_eq, Hp. split; eauto.
    + by rewrite lookup_insert_ne.
  - by rewrite (update_visibility_None _ _ _ Hp).
Qed.

Lemma call_watcher_same_ids v k b s : same_ids s (call_watcher v k b s).1.
Proof.
  destruct (available v k) eqn:Hk.
  - rewrite call_watcher_available by done. apply update_visibility_same_ids.
  - by rewrite call_watcher_unavailable.
Qed.

Lemma assign_same_ids v k b s : same_ids s (assign v k b s).1.
Proof.
  unfold assign. destruct (Bool.eqb (show k s) b); [done|].
  intros id. by rewrite (call_watcher_same_ids v k b _ id).
Qed.

Lemma run_action_same_ids v a s : same_ids s (run_action v a s).1.
Proof.
  destruct a; cbn [run_action]; try done; try apply assign_same_ids.
  unfold action_command_palette. destruct (screen_stack s) as [|top rest];
    [done|]. by destruct (String.eqb top "--command-palette").
Qed.

Lemma handle_same_ids v e s : same_ids s (handle v e s).1.
Proof.
  destruct e as [key|message|result|]; simpl.
  - unfold on_key. destruct (lookup_binding _ _); [|done].
    apply run_action_same_ids.
  - apply on_hover_line_same_ids.
  - unfold dismiss_editor. destruct (screen_stack s) as [|top rest]; [done|].
    destruct (String.eqb top "editor"); [|done].
    destruct result as [c|]; simpl; [|done].
    intros id. by rewrite (set_code_same_ids v c _ id).
  - unfold dismiss_palette. destruct (screen_stack s) as [|top rest]; [done|].
    by destruct (String.eqb top "--command-palette").
Qed.

Lemma run_same_ids v es s : same_ids s (run v es s).1.
Proof.
  apply (for_each_invariant (handle v) (same_ids s)); [|done].
  intros e s1 Hs1. eapply same_ids_trans; [exact Hs1 | apply handle_same_ids].
Qed.

Lemma startup_same_ids v s : same_ids s (startup v s).1.
Proof.
  unfold startup. rewrite and_also_fst, on_mount_fst.
  eapply same_ids_trans; [apply set_code_same_ids|].
  apply (for_each_invariant _ (same_ids _)); [|done].
  intros k s2 Hs2. eapply same_ids_trans; [exact Hs2|].
  apply call_watcher_same_ids.
Qed.

Lemma compose_ids v id :
  is_Some (compose (W := W) v !! id) ↔ id ∈ widget_id <$> stages v.
Proof.
  destruct v; unfold compose; simpl;
    rewrite ?lookup_insert_is_Some', ?lookup_empty, ?elem_of_cons,
      elem_of_nil, <- ?not_eq_None_Some; intuition congruence.
Qed.

Lemma started_ids v code es id :
  is_Some (body (run v es (startup v (new_app v code)).1).1 !! id)
  ↔ id ∈ widget_id <$> stages v.
Proof.
  etrans; [apply run_same_ids|]. etrans; [apply startup_same_ids|].
  apply compose_ids.
Qed.

Lemma started_mounted v code es :
  mounted v (run v es (startup v (new_app v code)).1).1.
Proof.
  intros k Hk. apply started_ids, list_elem_of_fmap.
  exists k. split; [done|]. by apply elem_of_stages.
Qed.
End Handlers.

(** * The claims *)

(** ** C1: who receives the highlight *)

(** A call that completes on widgets that are there, with the main screen
    on top, when the method raises on none of them. *)
Lemma call_all_completes {W} `{Widget W} (m : W → W * outcome) ids
    (s : CodeViewer W) :
  NoDup ids →
  screen_stack s = [] →
  (∀ id, id ∈ ids → ∃ p, body s !! id = Some p ∧ (m (child p)).2 = Done) →
  (call_all m ids s).2 = Done.
Proof.
  revert s. induction ids as [|i ids IH]; intros s Hnd Hst Hs; [done|].
  apply NoDup_cons in Hnd as [Hi Hnd].
  destruct (Hs i) as (p & Hp & Hm); [by apply elem_of_cons; left|].
  rewrite call_all_cons. unfold and_then.
  rewrite (call_Some i m s p) by (by apply query_one_Some).
  rewrite Hm. apply IH; [done..|].
  intros id Hid. simpl.
  rewrite lookup_insert_ne by (by intros ->).
  apply Hs. apply elem_of_cons. by right.
Qed.

(** C1, as stated, fails: with the Tokens flag unset and its container
    hidden, hovering line 3 still sends [highlight(3)] to the Tokens
    widget. *)
Lemma hover_highlights_hidden_panel :
  show Tokens (recorded_app true) = false
  ∧ display <$> body (recorded_app true) !! widget_id Tokens = Some none
  ∧ calls <$> widget_of Tokens (recorded_app true)
    = Some [Constructed Tokens; SetCode "a = 1"]
  ∧ calls <$> widget_of Tokens
      (on_hover_line (H := toy_recorder) true {| lineno := 3 |}
         (recorded_app true)).1
    = Some [Constructed Tokens; SetCode "a = 1"; Highlight 3].
Proof. vm_compute. done. Qed.

(** C1, amended: a hover that is handled to completion has called
    [highlight(line)] once on the widget of every stage the active toolchain
    version has, whatever the stage's visibility flag, and has changed
    nothing else.  The handler completes when the main screen is on top and
    no widget is missing or raises. *)
Theorem hover_highlights_every_panel {W} `{Widget W} v message
    (s s' : CodeViewer W) :
  (on_hover_line v message s = (s', Done) →
   screen_stack s = []
   ∧ same_outside_widgets s s'
   ∧ (∀ k, available v k = true →
           went_through (widget_highlight (lineno message)) s s'
             (widget_id k))
   ∧ (∀ id, id ∉ widget_id <$> stages v → body s' !! id = body s !! id))
  ∧ (screen_stack s = [] →
     (∀ k, available v k = true →
           ∃ p, body s !! widget_id k = Some p
                ∧ (widget_highlight (lineno message) (child p)).2 = Done) →
     (on_hover_line v message s).2 = Done).
Proof.
  rewrite !on_hover_line_stages. unfold highlight_call. split_and!.
  - intros Hrun.
    pose proof (call_all_same_outside (widget_highlight (lineno message))
                  (widget_id <$> stages v) s) as Hout.
    pose proof (fun id => call_all_lookup_other
                  (widget_highlight (lineno message))
                  (widget_id <$> stages v) s id) as Hother.
    rewrite Hrun in Hout, Hother. split_and!; [|done| |done].
    + destruct (screen_stack s) as [|top rest] eqn:Hst; [done|].
      destruct (stage_ids_cons v) as [rest' Hids]. rewrite Hids in Hrun.
      rewrite call_all_pushed in Hrun by (by rewrite Hst). done.
    + intros k Hk.
      apply (call_all_done _ _ _ _ (stage_ids_NoDup v) Hrun).
      apply list_elem_of_fmap. exists k. by rewrite elem_of_stages.
  - intros Hst Hws. apply call_all_completes; [apply stage_ids_NoDup|done|].
    intros id (k & -> & Hk)%list_elem_of_fmap. apply Hws.
    by apply elem_of_stages.
Qed.

Lemma hover_highlights_every_panel_witness :
  on_hover_line (H := toy_recorder) true {| lineno := 3 |} (recorded_app true)
  = ((on_hover_line (H := toy_recorder) true {| lineno := 3 |}
        (recorded_app true)).1, Done)
  ∧ ∀ k, available true k = true →
         went_through (widget_highlight (Widget := toy_recorder) 3)
           (recorded_app true)
           (on_hover_line (H := toy_recorder) true {| lineno := 3 |}
              (recorded_app true)).1
           (widget_id k).
Proof.
  assert (on_hover_line (H := toy_recorder) true {| lineno := 3 |}
            (recorded_app true)
          = ((on_hover_line (H := toy_recorder) true {| lineno := 3 |}
                (recorded_app true)).1, Done)) as Hrun.
  { vm_compute. reflexivity. }
  split; [exact Hrun|].
  exact (proj1 (proj2 (proj2
           (proj1 (hover_highlights_every_panel (H := toy_recorder) true
                     {| lineno := 3 |} (recorded_app true) _) Hrun)))).
Defined.

(** ** C2: hovering the same line twice *)

Lemma panel_highlight_idempotent line (p : PanelView) :
  highlight (lookup_line line (index (highlight (lookup_line line (index p)) p)))
    (highlight (lookup_line line (index p)) p)
  = highlight (lookup_line line (index p)) p.
Proof. reflexivity. Qed.

(** C2: with the specification's panels, handling a hover of line L a second
    time gives the very application the first handling gave (and the same
    outcome): every panel, flag and layout field is the same, on every state
    and for either toolchain version. *)
Theorem hover_twice_same_highlight (tc : Toolchain) v message
    (s : CodeViewer PanelView) :
  on_hover_line (H := panel_widget tc) v message
    (on_hover_line (H := panel_widget tc) v message s).1
  = on_hover_line (H := panel_widget tc) v message s.
Proof.
  rewrite !on_hover_line_stages. unfold highlight_call.
  apply (call_all_idempotent
           (fun p => highlight (lookup_line (lineno message) (index p)) p)).
  - intros p. apply panel_highlight_idempotent.
  - apply stage_ids_NoDup.
Qed.

(** ** C3: the number of columns *)

Lemma visible_count_le_7 {W} (s : CodeViewer W) : (visible_count s ≤ 7)%nat.
Proof.
  destruct s as [c b1 b2 b3 b4 b5 b6 b7 e b g st].
  destruct b1, b2, b3, b4, b5, b6, b7; vm_compute; lia.
Qed.

Lemma visible_count_ext {W} (s s' : CodeViewer W) :
  (∀ k, show k s' = show k s) → visible_count s' = visible_count s.
Proof.
  intros Hs.
  pose proof (Hs Source). pose proof (Hs Tokens). pose proof (Hs AST).
  pose proof (Hs OptimizedAST). pose proof (Hs PseudoBytecode).
  pose proof (Hs OptimizedPseudoBytecode). pose proof (Hs FinalBytecode).
  destruct s, s'; simpl in *; subst; reflexivity.
Qed.

(** A key of the class's own bindings is found first in the whole list. *)
Lemma all_bindings_own {W} `{Widget W} v key a :
  lookup_binding (BINDINGS v) key = Some a →
  lookup_binding (all_bindings v) key = Some a.
Proof. unfold all_bindings. rewrite lookup_binding_app. by intros ->. Qed.

(** An event that changes a flag is a toggle key, and what it runs is the
    watcher of the flag on the state with the flag flipped. *)
Lemma flag_change_runs_watcher {W} `{Widget W} v e (s : CodeViewer W) k :
  show k (handle v e s).1 ≠ show k s →
  available v k = true
  ∧ handle v e s
    = update_visibility (widget_id k) (negb (show k s))
        (set_show k (negb (show k s)) s).
Proof.
  intros Hk.
  destruct (handle_show_changes v e s k Hk) as (key & -> & Hkey).
  pose proof (bound_toggle_available v key k Hkey) as Hav.
  split; [done|]. simpl. unfold on_key.
  rewrite (all_bindings_own v key _ Hkey).
  rewrite run_action_toggle, assign_negb.
  by rewrite call_watcher_available.
Qed.

(** C3: whatever the seven flags are, and for either toolchain version, an
    event that changes a visibility flag and is handled to completion leaves
    the columns of the body at the minimum of the number of visible stages
    and three, hence at most three.  It is handled to completion whenever the
    main screen is on top and the widgets are mounted; with another screen
    pushed over it, the watcher's query raises [NoMatches] after the flag
    was stored, and no column count is computed.  Either way the columns
    stay at most three. *)
Theorem columns_after_visibility_change {W} `{Widget W} v e
    (s s' : CodeViewer W) o :
  handle v e s = (s', o) →
  (∃ k, show k s' ≠ show k s) →
  (o = Done →
   grid_size_columns s' = Some (Z.min (Z.of_nat (visible_count s')) 3)
   ∧ Z.min (Z.of_nat (visible_count s')) 3 ≤ 3)
  ∧ (mounted v s → screen_stack s = [] → o = Done)
  ∧ (screen_stack s ≠ [] →
     (∃ id, o = Raise (NoMatches ("#" ++ id)))
     ∧ grid_size_columns s' = grid_size_columns s)
  ∧ ((∀ n, grid_size_columns s = Some n → n ≤ 3) →
     ∀ n, grid_size_columns s' = Some n → n ≤ 3).
Proof.
  intros Hrun [k Hk].
  replace s' with (handle v e s).1 in Hk by by rewrite Hrun.
  destruct (flag_change_runs_watcher v e s k Hk) as [Hav Heq].
  rewrite Heq in Hrun. split_and!.
  - intros ->. split; [|lia]. by eapply update_visibility_columns.
  - intros Hm Hst. destruct (Hm k Hav) as [p Hp].
    rewrite (update_visibility_Some _ _ _ p) in Hrun
      by (by apply query_one_Some).
    by injection Hrun as <- <-.
  - intros Hst. rewrite update_visibility_pushed in Hrun by done.
    injection Hrun as <- <-. split; [by eexists|]. by destruct k.
  - intros Hle n Hn.
    destruct (query_one (widget_id k) (set_show k (negb (show k s)) s))
      as [p|] eqn:Hq.
    + rewrite (update_visibility_Some _ _ _ _ Hq) in Hrun.
      injection Hrun as <- <-. simpl in Hn. injection Hn as <-. lia.
    + rewrite (update_visibility_None _ _ _ Hq) in Hrun.
      injection Hrun as <- <-. by apply Hle.
Qed.

Lemma columns_after_visibility_change_witness :
  handle (H := toy_recorder) true (KeyPress "2") (recorded_app true)
  = ((handle (H := toy_recorder) true (KeyPress "2") (recorded_app true)).1,
     Done)
  ∧ (∃ k, show k
            (handle (H := toy_recorder) true (KeyPress "2")
               (recorded_app true)).1
          ≠ show k (recorded_app true))
  ∧ grid_size_columns
      (handle (H := toy_recorder) true (KeyPress "2") (recorded_app true)).1
    = Some 3.
Proof.
  assert (handle (H := toy_recorder) true (KeyPress "2") (recorded_app true)
          = ((handle (H := toy_recorder) true (KeyPress "2")
                (recorded_app true)).1, Done)) as Hrun.
  { vm_compute. reflexivity. }
  assert (∃ k, show k
            (handle (H := toy_recorder) true (KeyPress "2")
               (recorded_app true)).1
          ≠ show k (recorded_app true)) as Hch.
  { exists Tokens. vm_compute. discriminate. }
  split_and!; [exact Hrun | exact Hch |].
  destruct (columns_after_visibility_change (H := toy_recorder) true
              (KeyPress "2") (recorded_app true) _ Done Hrun Hch)
    as (Hcols & _).
  rewrite (proj1 (Hcols eq_refl)). vm_compute. reflexivity.
Defined.

(** ** C4: toggles of stages the toolchain lacks *)

(** C4: under the reduced toolchain no key, of the class's own bindings or
    of the inherited ones, is bound to the toggle of a stage the toolchain
    lacks; the keys 4, 5 and 6 leave the whole application as it is, and no
    event and no run of events changes the flag of such a stage.  An event
    that changes the count of visible stages is a key bound to the toggle of
    a stage the toolchain has. *)
Theorem reduced_toolchain_toggle_unbound {W} `{Widget W} k
    (s : CodeViewer W) :
  needs_3_13 k = true →
  (∀ key, lookup_binding (all_bindings false) key ≠ Some (toggle_of k))
  ∧ on_key false "4" s = (s, Done)
  ∧ on_key false "5" s = (s, Done)
  ∧ on_key false "6" s = (s, Done)
  ∧ (∀ e, show k (handle false e s).1 = show k s)
  ∧ (∀ es, show k (run false es s).1 = show k s)
  ∧ (∀ e, visible_count (handle false e s).1 ≠ visible_count s →
          ∃ key k', e = KeyPress key ∧ needs_3_13 k' = false
                    ∧ lookup_binding (BINDINGS false) key = Some (toggle_of k')).
Proof.
  intros Hk.
  assert (available false k = false) as Hav by (by destruct k).
  assert (∀ key, lookup_binding (all_bindings false) key ≠ Some (toggle_of k))
    as Hunbound.
  { intros key Hkey%all_bindings_toggle%bound_toggle_available. congruence. }
  assert (∀ e (s1 : CodeViewer W), show k (handle false e s1).1 = show k s1)
    as Hstep.
  { intros e s1.
    destruct (decide (show k (handle false e s1).1 = show k s1))
      as [|Hne]; [done|].
    destruct (handle_show_changes false e s1 k Hne) as (key & _ & Hkey).
    apply bound_toggle_available in Hkey. congruence. }
  split_and!; try done.
  - intros es.
    apply (for_each_invariant (handle false)
             (fun s1 => show k s1 = show k s)); [|done].
    intros e s1 Hs1. by rewrite Hstep.
  - intros e Hcount.
    assert (∃ k', show k' (handle false e s).1 ≠ show k' s) as [k' Hk'].
    { set (s1 := (handle false e s).1) in *.
      destruct (decide (show Source s1 = show Source s)); [|by exists Source].
      destruct (decide (show Tokens s1 = show Tokens s)); [|by exists Tokens].
      destruct (decide (show AST s1 = show AST s)); [|by exists AST].
      destruct (decide (show OptimizedAST s1 = show OptimizedAST s));
        [|by exists OptimizedAST].
      destruct (decide (show PseudoBytecode s1 = show PseudoBytecode s));
        [|by exists PseudoBytecode].
      destruct (decide (show OptimizedPseudoBytecode s1
                        = show OptimizedPseudoBytecode s));
        [|by exists OptimizedPseudoBytecode].
      destruct (decide (show FinalBytecode s1 = show FinalBytecode s));
        [|by exists FinalBytecode].
      exfalso. apply Hcount, visible_count_ext. by intros []. }
    destruct (handle_show_changes false e s k' Hk') as (key & -> & Hkey).
    exists key, k'. split_and!; [done| |done].
    apply bound_toggle_available in Hkey. by destruct k'.
Qed.

Lemma reduced_toolchain_toggle_unbound_witness :
  needs_3_13 OptimizedAST = true
  ∧ on_key false "4" (recorded_app false) = (recorded_app false, Done)
  ∧ show OptimizedAST
      (run (H := toy_recorder) false
         [KeyPress "4"; KeyPress "2"; KeyPress "5"] (recorded_app false)).1
    = show OptimizedAST (recorded_app false).
Proof.
  split; [reflexivity|].
  destruct (reduced_toolchain_toggle_unbound (H := toy_recorder) OptimizedAST
              (recorded_app false) eq_refl)
    as (_ & H4 & _ & _ & _ & Hrun & _).
  split; [exact H4 | exact (Hrun _)].
Defined.

(** ** C5 and C6: [set_code] over the stages *)

Section SetCode.
Context {W : Type} `{Widget W}.
Implicit Types s : CodeViewer W.

(** A call that completes went through the widget of every stage of the
    active version. *)
Lemma set_code_done v code s s' :
  set_code v code s = (s', Done) →
  ∀ k, available v k = true →
       went_through (widget_set_code code) s s' (widget_id k).
Proof.
  rewrite set_code_stages. intros Hrun k Hk.
  apply (call_all_done _ _ _ _ (stage_ids_NoDup v) Hrun).
  apply list_elem_of_fmap. exists k. by rewrite elem_of_stages.
Qed.

(** A call that raises stopped at one stage: the stages before it went
    through, the stages after it were not touched. *)
Lemma set_code_raise v code s s' e :
  set_code v code s = (s', Raise e) →
  ∃ (pre : list StageKind) (k : StageKind) (post : list StageKind),
    stages v = (pre ++ k :: post)%list
    ∧ (∀ j, j ∈ pre → went_through (widget_set_code code) s s' (widget_id j))
    ∧ failed_at (widget_set_code code) s s' (widget_id k) e
    ∧ (∀ j, j ∈ post → body s' !! widget_id j = body s !! widget_id j).
Proof.
  rewrite set_code_stages. intros Hrun.
  destruct (call_all_raise _ _ _ _ _ (stage_ids_NoDup v) Hrun)
    as (pre' & id & post' & Hsplit & Hpre & Hat & Hpost).
  apply fmap_app_inv in Hsplit as (pre & rest & -> & Hrest & Hst).
  symmetry in Hrest.
  apply fmap_cons_inv in Hrest as (k & post & -> & -> & ->).
  exists pre, k, post. split_and!; [done| |done|].
  - intros j Hj. apply Hpre, list_elem_of_fmap. eauto.
  - intros j Hj. apply Hpost, list_elem_of_fmap. eauto.
Qed.

End SetCode.







(** ** C7: the visibility flags *)

Lemma startup_show {W} `{Widget W} v (s : CodeViewer W) k :
  show k (startup v s).1 = show k s.
Proof.
  unfold startup. rewrite and_also_fst, on_mount_fst.
  rewrite <- (set_code_show v (startup_code s) s k).
  apply (for_each_invariant _
           (fun s2 => show k s2 = show k (set_code v (startup_code s) s).1));
    [|done].
  intros k' s2 Hs2. by rewrite call_watcher_show.
Qed.

(** C7: a fresh application shows Source and FinalBytecode and hides the
    five other stages, start-up leaves the flags so, and afterwards an event
    changes a flag only by being a key bound to that flag's toggle action,
    which negates it. *)
Theorem visibility_defaults_and_toggles {W} `{Widget W} v code :
  (∀ k, show k (new_app v code)
        = match k with Source | FinalBytecode => true | _ => false end)
  ∧ (∀ k, show k (startup v (new_app v code)).1 = show k (new_app v code))
  ∧ (∀ e (s : CodeViewer W) k,
       show k (handle v e s).1 ≠ show k s →
       ∃ key, e = KeyPress key
              ∧ lookup_binding (BINDINGS v) key = Some (toggle_of k)
              ∧ show k (handle v e s).1 = negb (show k s)).
Proof.
  split_and!.
  - by intros [].
  - intros k. apply startup_show.
  - intros e s k Hne.
    destruct (handle_show_changes v e s k Hne) as (key & -> & Hkey).
    exists key. split_and!; [done..|].
    destruct (show k (handle v (KeyPress key) s).1), (show k s); done.
Qed.

(** ** C8: what the editor returns *)

(** C8: when the editor is dismissed without a string, the callback does
    nothing, and the application is exactly what it was before the editor
    was opened; when it is dismissed with a string, the callback is
    [set_code] on exactly that string. *)
Theorem editor_result_consumed {W} `{Widget W} v (s : CodeViewer W) :
  update_code v None s = (s, Done)
  ∧ (∀ code, update_code v (Some code) s = set_code v code s)
  ∧ dismiss_editor v None (action_open_editor s).1 = (s, Done)
  ∧ (∀ code, dismiss_editor v (Some code) (action_open_editor s).1
             = set_code v code s).
Proof.
  split_and!; try done; intros; unfold dismiss_editor; simpl; by destruct s.
Qed.

(** ** C9: the stages of the active version *)

Lemma unavailable_id v k :
  available v k = false → widget_id k ∉ widget_id <$> stages v.
Proof.
  intros Hk (k' & Heq & Hk')%list_elem_of_fmap.
  apply widget_id_inj in Heq as <-. apply elem_of_stages in Hk'. congruence.
Qed.

(** C9: the version flag is a parameter of the application, not part of its
    state.  At any point of any run the widgets in the DOM are those of the
    stages of the active version: all seven under the full toolchain, all
    but OptimizedAST, PseudoBytecode and OptimizedPseudoBytecode under the
    reduced one.  For a stage the version lacks there is no key binding and
    no watcher, and neither [set_code] nor the hover handler touches its
    id. *)
Theorem available_stages_fixed {W} `{Widget W} v code es :
  (∀ k, is_Some (widget_of k (run v es (startup v (new_app v code)).1).1)
        ↔ available v k = true)
  ∧ (∀ id, is_Some (body (run v es (startup v (new_app v code)).1).1 !! id)
           ↔ id ∈ widget_id <$> stages v)
  ∧ stages true = all_stages
  ∧ stages false = [Source; Tokens; AST; FinalBytecode]
  ∧ (∀ k, available v k = false ↔ v = false ∧ needs_3_13 k = true)
  ∧ (∀ key k, lookup_binding (BINDINGS v) key = Some (toggle_of k) →
              available v k = true)
  ∧ (∀ k, available v k = false → watcher (W := W) v k = None)
  ∧ (∀ k c (s : CodeViewer W), available v k = false →
       body (set_code v c s).1 !! widget_id k = body s !! widget_id k)
  ∧ (∀ k message (s : CodeViewer W), available v k = false →
       body (on_hover_line v message s).1 !! widget_id k
       = body s !! widget_id k).
Proof.
  split_and!; try done.
  - intros k. unfold widget_of. rewrite fmap_is_Some, started_ids.
    rewrite list_elem_of_fmap. split.
    + intros (k' & Heq & Hk'). apply widget_id_inj in Heq as <-.
      by apply elem_of_stages.
    + intros Hk. exists k. by rewrite elem_of_stages.
  - apply started_ids.
  - intros k. destruct v, k; simpl; intuition congruence.
  - apply bound_toggle_available.
  - intros k Hk. by destruct v, k.
  - intros k c s Hk. rewrite set_code_stages.
    by rewrite call_all_lookup_other by by apply unavailable_id.
  - intros k message s Hk. rewrite on_hover_line_stages.
    by rewrite call_all_lookup_other by by apply unavailable_id.
Qed.

(** ** C10: the editor and the current source *)

Section EditorText.
Context {W : Type} `{Widget W}.
Implicit Types s : CodeViewer W.

Lemma update_visibility_editor id b s :
  editor (update_visibility id b s).1 = editor s.
Proof.
  destruct (query_one id s) as [p|] eqn:Hp.
  - by rewrite (update_visibility_Some _ _ _ _ Hp).
  - by rewrite (update_visibility_None _ _ _ Hp).
Qed.

Lemma call_watcher_editor v k b s :
  editor (call_watcher v k b s).1 = editor s.
Proof.
  destruct (available v k) eqn:Hk.
  - rewrite call_watcher_available by done. apply update_visibility_editor.
  - by rewrite call_watcher_unavailable.
Qed.

Lemma assign_editor v k b s : editor (assign v k b s).1 = editor s.
Proof.
  unfold assign. destruct (Bool.eqb (show k s) b); [done|].
  rewrite call_watcher_editor. by destruct k.
Qed.

Lemma run_action_editor v a s : editor (run_action v a s).1 = editor s.
Proof.
  destruct a; cbn [run_action]; try done; try apply assign_editor.
  unfold action_command_palette. destruct (screen_stack s) as [|top rest];
    [done|]. by destruct (String.eqb top "--command-palette").
Qed.

(** An event that hands a string to [set_code] is the dismissal of the
    editor on top of the stack, and handling it is that [set_code]. *)
Lemma handle_code_passed v e s c :
  code_passed e s = Some c →
  ∃ rest, screen_stack s = "editor" :: rest
          ∧ handle v e s = set_code v c (set_screen_stack rest s).
Proof.
  destruct e as [key|message|[c'|]|]; simpl; try done.
  unfold dismiss_editor.
  destruct (screen_stack s) as [|top rest] eqn:Hst; [done|].
  destruct (String.eqb top "editor") eqn:Htop; [|done].
  apply String.eqb_eq in Htop as ->. intros [= ->]. by exists rest.
Qed.

(** Every other event leaves the editor's text alone. *)
Lemma handle_editor v e s :
  code_passed e s = None → editor (handle v e s).1 = editor s.
Proof.
  destruct e as [key|message|result|]; simpl.
  - intros _. unfold on_key. destruct (lookup_binding _ _); [|done].
    apply run_action_editor.
  - intros _.
    by destruct (on_hover_line_same_outside v message s) as (_ & _ & -> & _).
  - unfold dismiss_editor. destruct (screen_stack s) as [|top rest]; [done|].
    destruct (String.eqb top "editor"); [|done].
    by destruct result.
  - intros _. unfold dismiss_palette.
    destruct (screen_stack s) as [|top rest]; [done|].
    by destruct (String.eqb top "--command-palette").
Qed.

Lemma handle_editor_text v e s :
  editor_text (editor (handle v e s).1)
  = default (editor_text (editor s)) (code_passed e s).
Proof.
  destruct (code_passed e s) as [c|] eqn:Hc; simpl.
  - destruct (handle_code_passed v e s c Hc) as (rest & _ & ->).
    apply set_code_editor.
  - by rewrite handle_editor.
Qed.

Lemma run_editor_text v es s :
  editor_text (editor (run v es s).1)
  = last_code_passed v es s (editor_text (editor s)).
Proof.
  revert s. induction es as [|e es IH]; intros s; [done|].
  unfold run. simpl. unfold and_then.
  pose proof (handle_editor_text v e s) as He.
  destruct (handle v e s) as [s1 [|ex]]; simpl in *.
  - fold (run v es s1). rewrite IH. by rewrite He.
  - done.
Qed.

Lemma startup_editor_text v code :
  editor_text (editor (startup v (new_app v code)).1) = code.
Proof.
  unfold startup. rewrite and_also_fst, on_mount_fst.
  change (startup_code (new_app v code)) with code.
  set (s1 := (set_code v code (new_app v code)).1).
  transitivity (editor_text (editor s1)); [|apply set_code_editor].
  f_equal.
  apply (for_each_invariant _ (fun s2 => editor s2 = editor s1)); [|done].
  intros k s2 Hs2. by rewrite call_watcher_editor.
Qed.
End EditorText.

(** C10: every [set_code(code)] first hands [code] to the editor screen,
    whatever happens in the stages afterwards; the only event that hands a
    string to [set_code] is the dismissal of the editor with that string, and
    every other event, opening the editor included, leaves the editor's text
    alone.  So after start-up and at every point of every run, for either
    toolchain version, the text the editor screen holds is the code most
    recently passed to [set_code]. *)
Theorem editor_shows_current_source {W} `{Widget W} v code es :
  (∀ c (s : CodeViewer W), editor_text (editor (set_code v c s).1) = c)
  ∧ (∀ e (s : CodeViewer W) c,
       code_passed e s = Some c →
       ∃ rest, screen_stack s = "editor" :: rest
               ∧ handle v e s = set_code v c (set_screen_stack rest s))
  ∧ (∀ e (s : CodeViewer W),
       code_passed e s = None → editor (handle v e s).1 = editor s)
  ∧ (∀ s : CodeViewer W, editor (action_open_editor s).1 = editor s)
  ∧ editor_text (editor (startup v (new_app v code)).1) = code
  ∧ editor_text (editor (run v es (startup v (new_app v code)).1).1)
    = last_code_passed v es (startup v (new_app v code)).1 code.
Proof.
  split_and!.
  - intros c s. apply set_code_editor.
  - intros e s c. apply handle_code_passed.
  - intros e s. apply handle_editor.
  - done.
  - apply startup_editor_text.
  - rewrite run_editor_text. by rewrite startup_editor_text.
Qed.

(** * Further properties of the viewer *)

(** ** Toggles *)

Section Toggles.
Context {W : Type}.
Implicit Types s : CodeViewer W.

Lemma CodeViewer_eq s s' :
  startup_code s = startup_code s' →
  (∀ k, show k s = show k s') →
  editor s = editor s' →
  body s = body s' →
  grid_size_columns s = grid_size_columns s' →
  screen_stack s = screen_stack s' →
  s = s'.
Proof.
  intros H1 Hs H3 H4 H5 H6.
  pose proof (Hs Source). pose proof (Hs Tokens). pose proof (Hs AST).
  pose proof (Hs OptimizedAST). pose proof (Hs PseudoBytecode).
  pose proof (Hs OptimizedPseudoBytecode). pose proof (Hs FinalBytecode).
  destruct s, s'; simpl in *; by subst.
Qed.

Lemma show_set_body k b s : show k (set_body b s) = show k s.
Proof. by destruct k. Qed.

Lemma show_set_grid_size_columns k n s :
  show k (set_grid_size_columns n s) = show k s.
Proof. by destruct k. Qed.

(** The toggle action of a stage that has its widget, on the main screen:
    the flag is negated, the container's display follows, the columns are
    recomputed. *)
Lemma run_action_toggle_Some v k s p :
  available v k = true →
  screen_stack s = [] →
  body s !! widget_id k = Some p →
  run_action v (toggle_of k) s
  = (set_grid_size_columns
       (Z.min (visible_panels (set_show k (negb (show k s)) s)) 3)
       (set_body
          (<[widget_id k :=
               set_display (if negb (show k s) then block else none) p]>
             (body s))
          (set_show k (negb (show k s)) s)),
     Done).
Proof.
  intros Hk Hst Hp.
  rewrite run_action_toggle, assign_negb, call_watcher_available by done.
  by rewrite (update_visibility_Some _ _ _ p) by (by apply query_one_Some).
Qed.

(** The same toggle while another screen is pushed over the main one: the
    flag is stored, then the watcher's query raises. *)
Lemma run_action_toggle_pushed v k s :
  available v k = true →
  screen_stack s ≠ [] →
  run_action v (toggle_of k) s
  = (set_show k (negb (show k s)) s, Raise (NoMatches ("#" ++ widget_id k))).
Proof.
  intros Hk Hst.
  rewrite run_action_toggle, assign_negb, call_watcher_available by done.
  by rewrite update_visibility_pushed.
Qed.

(** X1: the toggle of a stage of the active version.  With the main screen
    on top it completes: it negates that stage's flag and no other, sets the
    display of that stage's container to match and leaves every other
    container as it was, leaves the widget inside, the editor and the screen
    stack alone, and recomputes the columns.  With another screen pushed
    over the main one (the editor, say) the flag is negated all the same,
    then the watcher's query raises [NoMatches]: display and columns are left
    as they were, no longer in line with the flags. *)
Theorem toggle_changes_one_stage v k s :
  available v k = true →
  (∀ p, screen_stack s = [] →
        body s !! widget_id k = Some p →
        ∃ s', run_action v (toggle_of k) s = (s', Done)
              ∧ show k s' = negb (show k s)
              ∧ (∀ k', k' ≠ k → show k' s' = show k' s)
              ∧ body s' !! widget_id k
                = Some (set_display (if show k s then none else block) p)
              ∧ (∀ id, id ≠ widget_id k → body s' !! id = body s !! id)
              ∧ widget_of k s' = widget_of k s
              ∧ editor s' = editor s
              ∧ screen_stack s' = screen_stack s
              ∧ startup_code s' = startup_code s
              ∧ grid_size_columns s'
                = Some (Z.min (Z.of_nat (visible_count s')) 3))
  ∧ (screen_stack s ≠ [] →
     ∃ s', run_action v (toggle_of k) s
           = (s', Raise (NoMatches ("#" ++ widget_id k)))
           ∧ s' = set_show k (negb (show k s)) s
           ∧ show k s' = negb (show k s)
           ∧ (∀ k', k' ≠ k → show k' s' = show k' s)
           ∧ body s' = body s
           ∧ grid_size_columns s' = grid_size_columns s
           ∧ editor s' = editor s
           ∧ screen_stack s' = screen_stack s).
Proof.
  intros Hk. split.
  - intros p Hst Hp. eexists.
    split; [by apply run_action_toggle_Some|].
    split_and!.
    + rewrite show_set_grid_size_columns, show_set_body, show_set_show.
      by case_decide.
    + intros k' Hne.
      rewrite show_set_grid_size_columns, show_set_body, show_set_show.
      by case_decide.
    + cbn [body set_grid_size_columns set_body]. rewrite lookup_insert_eq.
      by destruct (show k s).
    + intros id Hne. cbn [body set_grid_size_columns set_body].
      by rewrite lookup_insert_ne.
    + unfold widget_of. cbn [body set_grid_size_columns set_body].
      by rewrite lookup_insert_eq, Hp.
    + reflexivity.
    + reflexivity.
    + reflexivity.
    + rewrite <- visible_panels_count. reflexivity.
  - intros Hst. eexists.
    split; [by apply run_action_toggle_pushed|].
    split_and!; try reflexivity.
    + rewrite show_set_show. by case_decide.
    + intros k' Hne. rewrite show_set_show. by case_decide.
Qed.
End Toggles.

Lemma toggle_changes_one_stage_witness :
  available true Tokens = true
  ∧ (∃ s', run_action true (toggle_of Tokens) (recorded_app true) = (s', Done)
           ∧ show Tokens s' = true)
  ∧ (∃ s', run_action true (toggle_of Tokens)
             (action_open_editor (recorded_app true)).1
           = (s', Raise (NoMatches "#tokens"))
           ∧ show Tokens s' = true
           ∧ grid_size_columns s' = Some 2).
Proof.
  split; [reflexivity|]. split.
  - assert (∃ p, body (recorded_app true) !! widget_id Tokens = Some p)
      as [p Hp] by (vm_compute; eexists; reflexivity).
    destruct (proj1 (toggle_changes_one_stage true Tokens (recorded_app true)
                       eq_refl) p eq_refl Hp) as (s' & Hrun & Hshow & _).
    exists s'. split; [exact Hrun|]. rewrite Hshow. reflexivity.
  - assert (screen_stack (action_open_editor (recorded_app true)).1 ≠ [])
      as Hst by discriminate.
    destruct (proj2 (toggle_changes_one_stage true Tokens
                       (action_open_editor (recorded_app true)).1 eq_refl)
                Hst) as (s' & Hrun & _ & Hshow & _ & _ & Hg & _).
    exists s'. split; [exact Hrun|]. split.
    + rewrite Hshow. reflexivity.
    + rewrite Hg. vm_compute. reflexivity.
Defined.

Section ToggleAlgebra.
Context {W : Type}.
Implicit Types s : CodeViewer W.

Lemma layout_ok_lookup v k s :
  layout_ok v s → available v k = true →
  ∃ p, body s !! widget_id k = Some p
       ∧ display p = if show k s then block else none.
Proof.
  intros [Hd _] Hk. specialize (Hd k Hk).
  destruct (body s !! widget_id k) as [p|]; [|done].
  exists p. split; [done|]. by injection Hd.
Qed.

Lemma show_toggled_state k k' x n b s :
  show k' (set_grid_size_columns n (set_body b (set_show k x s)))
  = if decide (k' = k) then x else show k' s.
Proof.
  by rewrite show_set_grid_size_columns, show_set_body, show_set_show.
Qed.

(** X2: on the main screen, on an application whose layout follows its
    flags, toggling a stage of the active version twice gives back the very
    same application. *)
Theorem toggle_twice_restores v k s :
  available v k = true → layout_ok v s → screen_stack s = [] →
  (run_action v (toggle_of k) ;; run_action v (toggle_of k)) s = (s, Done).
Proof.
  intros Hk Hok Hst.
  destruct (layout_ok_lookup v k s Hok Hk) as (p & Hp & Hdisp).
  erewrite and_then_done by by apply run_action_toggle_Some.
  set (s1 := set_grid_size_columns _ _).
  assert (∀ k', show k' s1
                = if decide (k' = k) then negb (show k s) else show k' s)
    as Hshow1 by (intros k'; apply show_toggled_state).
  set (p1 := set_display (if negb (show k s) then block else none) p).
  assert (body s1 !! widget_id k = Some p1) as Hp1.
  { unfold s1. cbn [body set_grid_size_columns set_body].
    apply lookup_insert_eq. }
  assert (screen_stack s1 = []) as Hst1 by exact Hst.
  rewrite (run_action_toggle_Some v k s1 p1 Hk Hst1 Hp1).
  set (s2 := set_grid_size_columns _ _).
  assert (∀ k', show k' s2
                = if decide (k' = k) then negb (show k s1) else show k' s1)
    as Hshow2 by (intros k'; apply show_toggled_state).
  assert (∀ k', show k' s2 = show k' s) as Hshow.
  { intros k'. rewrite Hshow2, !Hshow1.
    repeat case_decide; try done. subst. by rewrite negb_involutive. }
  f_equal. apply CodeViewer_eq; try done.
  - unfold s2. cbn [body set_grid_size_columns set_body].
    rewrite Hshow1, decide_True by done. rewrite negb_involutive.
    unfold s1. cbn [body set_grid_size_columns set_body].
    rewrite insert_insert_eq.
    apply insert_id. rewrite Hp. f_equal.
    unfold p1. destruct p as [t d c]. simpl in *. by subst.
  - destruct Hok as [_ ->].
    change (grid_size_columns s2)
      with (Some (Z.min (visible_panels s2) 3)).
    by rewrite visible_panels_count, (visible_count_ext s s2).
Qed.

(** X3: on the main screen, the toggles of two different stages of the
    active version commute: either order gives the same application. *)
Theorem toggles_commute v k1 k2 s :
  k1 ≠ k2 → available v k1 = true → available v k2 = true → mounted v s →
  screen_stack s = [] →
  (run_action v (toggle_of k1) ;; run_action v (toggle_of k2)) s
  = (run_action v (toggle_of k2) ;; run_action v (toggle_of k1)) s.
Proof.
  intros Hne Hk1 Hk2 Hm Hst.
  destruct (Hm k1 Hk1) as [p1 Hp1]. destruct (Hm k2 Hk2) as [p2 Hp2].
  assert (widget_id k1 ≠ widget_id k2) as Hid
    by (by intros ?%widget_id_inj).
  assert (∀ ka kb pa pb, ka ≠ kb → widget_id ka ≠ widget_id kb →
            available v ka = true → available v kb = true →
            body s !! widget_id ka = Some pa →
            body s !! widget_id kb = Some pb →
            ∃ s2, (run_action v (toggle_of ka) ;; run_action v (toggle_of kb)) s
                  = (s2, Done)
                  ∧ (∀ k', show k' s2
                           = if decide (k' = kb) then negb (show kb s)
                             else if decide (k' = ka) then negb (show ka s)
                             else show k' s)
                  ∧ body s2
                    = <[widget_id kb :=
                          set_display
                            (if negb (show kb s) then block else none) pb]>
                        (<[widget_id ka :=
                             set_display
                               (if negb (show ka s) then block else none) pa]>
                           (body s))
                  ∧ grid_size_columns s2
                    = Some (Z.min (Z.of_nat (visible_count s2)) 3)
                  ∧ startup_code s2 = startup_code s
                  ∧ editor s2 = editor s
                  ∧ screen_stack s2 = screen_stack s) as Hseq.
  { intros ka kb pa pb Hab Hidab Hka Hkb Hpa Hpb.
    erewrite and_then_done by by apply run_action_toggle_Some.
    set (s1 := set_grid_size_columns _ _).
    assert (∀ k', show k' s1
                  = if decide (k' = ka) then negb (show ka s) else show k' s)
      as Hshow1 by (intros k'; apply show_toggled_state).
    assert (body s1 !! widget_id kb = Some pb) as Hpb1.
    { unfold s1. cbn [body set_grid_size_columns set_body].
      by rewrite lookup_insert_ne. }
    assert (screen_stack s1 = []) as Hst1 by exact Hst.
    rewrite (run_action_toggle_Some v kb s1 pb Hkb Hst1 Hpb1).
    eexists. split; [reflexivity|].
    set (s2 := set_grid_size_columns _ _).
    assert (∀ k', show k' s2
                  = if decide (k' = kb) then negb (show kb s1) else show k' s1)
      as Hshow2 by (intros k'; apply show_toggled_state).
    split_and!.
    - intros k'. rewrite Hshow2, !Hshow1.
      rewrite (decide_False (P := kb = ka)) by done. reflexivity.
    - unfold s2. cbn [body set_grid_size_columns set_body].
      rewrite Hshow1.
      by rewrite (decide_False (P := kb = ka)) by done.
    - change (grid_size_columns s2)
        with (Some (Z.min (visible_panels s2) 3)).
      by rewrite visible_panels_count.
    - reflexivity.
    - reflexivity.
    - reflexivity. }
  destruct (Hseq k1 k2 p1 p2) as (sa & -> & Hsa & Hba & Hga & H1a & H2a & H3a);
    try done.
  destruct (Hseq k2 k1 p2 p1) as (sb & -> & Hsb & Hbb & Hgb & H1b & H2b & H3b);
    try done.
  f_equal. apply CodeViewer_eq; try congruence.
  - intros k'. rewrite Hsa, Hsb. repeat case_decide; congruence.
  - rewrite Hba, Hbb. by apply insert_insert_ne.
  - rewrite Hga, Hgb. do 3 f_equal. apply visible_count_ext.
    intros k'. rewrite Hsa, Hsb. repeat case_decide; congruence.
Qed.
End ToggleAlgebra.

Lemma recorded_app_layout_ok : layout_ok true (recorded_app true).
Proof.
  split; [intros k _; destruct k; vm_compute; reflexivity|].
  vm_compute. reflexivity.
Qed.

Lemma toggle_twice_restores_witness :
  available true AST = true
  ∧ layout_ok true (recorded_app true)
  ∧ screen_stack (recorded_app true) = []
  ∧ (run_action true (toggle_of AST) ;; run_action true (toggle_of AST))
      (recorded_app true)
    = (recorded_app true, Done).
Proof.
  split; [reflexivity|]. split; [exact recorded_app_layout_ok|].
  split; [reflexivity|].
  exact (toggle_twice_restores true AST (recorded_app true) eq_refl
           recorded_app_layout_ok eq_refl).
Defined.

Lemma toggles_commute_witness :
  Source ≠ Tokens
  ∧ mounted true (recorded_app true)
  ∧ screen_stack (recorded_app true) = []
  ∧ (run_action true (toggle_of Source) ;; run_action true (toggle_of Tokens))
      (recorded_app true)
    = (run_action true (toggle_of Tokens) ;; run_action true (toggle_of Source))
        (recorded_app true).
Proof.
  assert (mounted true (recorded_app true)) as Hm.
  { intros k _. destruct k; vm_compute; eexists; reflexivity. }
  assert (Source ≠ Tokens) as Hne by discriminate.
  split; [exact Hne|]. split; [exact Hm|]. split; [reflexivity|].
  exact (toggles_commute true Source Tokens (recorded_app true) Hne
           eq_refl eq_refl Hm eq_refl).
Defined.

(** ** The layout follows the flags *)

Section Layout.
Context {W : Type} `{Widget W}.
Implicit Types s : CodeViewer W.

Lemma layout_ok_mounted v s : layout_ok v s → mounted v s.
Proof.
  intros [Hd _] k Hk. specialize (Hd k Hk).
  destruct (body s !! widget_id k); [eauto|done].
Qed.

Lemma layout_ok_transfer v s s' :
  (∀ k, show k s' = show k s) →
  grid_size_columns s' = grid_size_columns s →
  (∀ id, display <$> body s' !! id = display <$> body s !! id) →
  layout_ok v s → layout_ok v s'.
Proof.
  intros Hshow Hgrid Hdisp [Hd Hg]. split.
  - intros k Hk. rewrite Hdisp, Hshow. by apply Hd.
  - by rewrite Hgrid, Hg, (visible_count_ext s s').
Qed.

Lemma layout_ok_same_outside v s s' :
  same_outside_widgets s s' → layout_ok v s → layout_ok v s'.
Proof.
  intros (_ & Hshow & _ & Hgrid & _ & Hdisp). by apply layout_ok_transfer.
Qed.

Lemma layout_ok_toggle v k s :
  available v k = true → screen_stack s = [] → layout_ok v s →
  layout_ok v (run_action v (toggle_of k) s).1.
Proof.
  intros Hk Hst Hok.
  destruct (layout_ok_lookup v k s Hok Hk) as (p & Hp & _).
  rewrite (run_action_toggle_Some v k s p Hk Hst Hp).
  cbn [fst]. set (s1 := set_grid_size_columns _ _).
  assert (∀ k', show k' s1
                = if decide (k' = k) then negb (show k s) else show k' s)
    as Hshow by (intros k'; apply show_toggled_state).
  split.
  - intros k' Hk'. rewrite Hshow. unfold s1.
    cbn [body set_grid_size_columns set_body]. case_decide as Heq.
    + subst k'. by rewrite lookup_insert_eq.
    + rewrite lookup_insert_ne by (by intros ?%widget_id_inj).
      by apply Hok.
  - change (grid_size_columns s1) with (Some (Z.min (visible_panels s1) 3)).
    by rewrite visible_panels_count.
Qed.

Lemma layout_ok_handle v e s :
  layout_ok v s →
  layout_ok v (handle v e s).1 ∨ toggle_behind_screen v e s.
Proof.
  intros Hok. destruct e as [key|message|result|]; simpl.
  - unfold on_key.
    destruct (lookup_binding (all_bindings v) key) as [a|] eqn:Hkey;
      [|by left].
    destruct (bound_action_cases v key a Hkey)
      as [->|[->|[->|(k & -> & Hk & Hown)]]].
    + by left.
    + left. eapply layout_ok_transfer; [| | |exact Hok]; done.
    + left. cbn [run_action]. unfold action_command_palette.
      destruct (screen_stack s) as [|top rest]; [|destruct (String.eqb _ _)];
        try done; (eapply layout_ok_transfer; [| | |exact Hok]; done).
    + destruct (screen_stack s) as [|top rest] eqn:Hst.
      * left. by apply layout_ok_toggle.
      * right. split; [by rewrite Hst|]. exists key, k.
        split_and!; try done. simpl. unfold on_key. rewrite Hkey.
        apply run_action_toggle_pushed; [done|by rewrite Hst].
  - left. eapply layout_ok_same_outside; [|exact Hok].
    apply on_hover_line_same_outside.
  - left. unfold dismiss_editor.
    destruct (screen_stack s) as [|top rest]; [done|].
    destruct (String.eqb top "editor"); [|done].
    destruct result as [c|]; simpl.
    + eapply layout_ok_same_outside; [apply set_code_same_outside|].
      eapply layout_ok_transfer; [| | |exact Hok]; try done.
    + eapply layout_ok_transfer; [| | |exact Hok]; try done.
  - left. unfold dismiss_palette.
    destruct (screen_stack s) as [|top rest]; [done|].
    destruct (String.eqb top "--command-palette"); [|done].
    eapply layout_ok_transfer; [| | |exact Hok]; done.
Qed.

Lemma run_cons v e es s :
  run v (e :: es) s
  = match handle v e s with
    | (s1, Done) => run v es s1
    | (s1, Raise ex) => (s1, Raise ex)
    end.
Proof. reflexivity. Qed.

(** Along a run the layout stays in line, unless the run was ended by a
    toggle key pressed behind a pushed screen. *)
Lemma layout_ok_run v es s :
  layout_ok v s →
  layout_ok v (run v es s).1
  ∨ ∃ k, available v k = true
         ∧ (run v es s).2 = Raise (NoMatches ("#" ++ widget_id k))
         ∧ screen_stack (run v es s).1 ≠ [].
Proof.
  revert s. induction es as [|e es IH]; intros s Hok; [by left|].
  rewrite run_cons.
  destruct (layout_ok_handle v e s Hok) as [Hok1|(Hst & key & k & _ & _ & Hk & Hh)].
  - destruct (handle v e s) as [s1 [|ex]]; [by apply IH | by left].
  - rewrite Hh. right. exists k. by split_and!.
Qed.

Lemma layout_ok_run_done v es s :
  layout_ok v s → (run v es s).2 = Done → layout_ok v (run v es s).1.
Proof.
  intros Hok Hdone.
  destruct (layout_ok_run v es s Hok) as [|(k & _ & Hr & _)]; [done|].
  congruence.
Qed.

(** X4: events keep the layout in line with the flags, with one exception.
    If every container of the active version is displayed exactly when its
    flag is set and the columns are the minimum of the visible count and
    three, the same holds after any run of key presses, hovers and screen
    dismissals that completes, and also after one ended by an exception,
    unless the exception is the [NoMatches] of a toggle key pressed while a
    screen is pushed over the main one.  Where the layout is in line, each
    stage has the display that goes with its flag, and the columns are
    between 0 and 3, 0 exactly when no flag is set. *)
Theorem events_keep_layout v es s :
  layout_ok v s →
  (layout_ok v (run v es s).1
   ∨ ∃ k, available v k = true
          ∧ (run v es s).2 = Raise (NoMatches ("#" ++ widget_id k))
          ∧ screen_stack (run v es s).1 ≠ [])
  ∧ ((run v es s).2 = Done → layout_ok v (run v es s).1)
  ∧ (layout_ok v (run v es s).1 →
     (∀ k p, available v k = true →
             body (run v es s).1 !! widget_id k = Some p →
             (display p = block ↔ show k (run v es s).1 = true))
     ∧ ∃ n, grid_size_columns (run v es s).1 = Some n
            ∧ 0 ≤ n ≤ 3
            ∧ (n = 0 ↔ ∀ k, show k (run v es s).1 = false)).
Proof.
  intros Hok. split_and!.
  - by apply layout_ok_run.
  - by apply layout_ok_run_done.
  - intros Hok'. set (s' := (run v es s).1) in *. split.
    + intros k p Hk Hp. destruct Hok' as [Hd _]. specialize (Hd k Hk).
      rewrite Hp in Hd. simpl in Hd. injection Hd as ->.
      by destruct (show k s').
    + destruct Hok' as [_ Hg]. eexists. split; [exact Hg|]. split; [lia|].
      rewrite <- visible_panels_count. unfold visible_panels.
      split.
      * intros Hz k.
        destruct s' as [c b1 b2 b3 b4 b5 b6 b7 e b g st].
        destruct b1, b2, b3, b4, b5, b6, b7; simpl in Hz; try lia.
        by destruct k.
      * intros Hall.
        rewrite (Hall Source : show_source s' = false),
          (Hall Tokens : show_tokens s' = false),
          (Hall AST : show_ast s' = false),
          (Hall OptimizedAST : show_opt_ast s' = false),
          (Hall PseudoBytecode : show_pseudo_bc s' = false),
          (Hall OptimizedPseudoBytecode : show_opt_pseudo_bc s' = false),
          (Hall FinalBytecode : show_code_obj s' = false).
        reflexivity.
Qed.
End Layout.

Lemma events_keep_layout_witness :
  layout_ok true (recorded_app true)
  ∧ layout_ok true
      (run (H := toy_recorder) true
         [KeyPress "2"; Hovered {| lineno := 1 |}; KeyPress "e";
          EditorDismissed (Some "b = 2"); KeyPress "1"]
         (recorded_app true)).1.
Proof.
  split; [exact recorded_app_layout_ok|].
  apply (proj1 (proj2 (events_keep_layout (H := toy_recorder) true
                         [KeyPress "2"; Hovered {| lineno := 1 |};
                          KeyPress "e"; EditorDismissed (Some "b = 2");
                          KeyPress "1"]
                         (recorded_app true) recorded_app_layout_ok))).
  vm_compute. reflexivity.
Defined.

(** ** Start-up *)

Section Startup.
Context {W : Type} `{Widget W}.
Implicit Types s : CodeViewer W.

(** [compose] puts under each stage's id the widget constructed for that
    stage, displayed. *)
Lemma compose_lookup v k :
  available v k = true →
  ∃ t, compose v !! widget_id k
       = Some {| title := t; display := block; child := widget_new k |}.
Proof.
  destruct v, k; simpl; try discriminate; intros _; unfold compose;
    eexists; simplify_map_eq; reflexivity.
Qed.

(** One step of the initialisation of the reactive attributes. *)
Lemma initialize_step v k s :
  mounted v s → screen_stack s = [] →
  ∃ s1, call_watcher v k (show k s) s = (s1, Done)
        ∧ mounted v s1
        ∧ screen_stack s1 = []
        ∧ (∀ k', show k' s1 = show k' s)
        ∧ same_widgets s s1
        ∧ (∀ k', available v k' = true →
                 k' = k
                 ∨ display <$> body s !! widget_id k'
                   = Some (if show k' s then block else none) →
                 display <$> body s1 !! widget_id k'
                 = Some (if show k' s1 then block else none))
        ∧ (available v k = true
           ∨ grid_size_columns s
             = Some (Z.min (Z.of_nat (visible_count s)) 3) →
           grid_size_columns s1
           = Some (Z.min (Z.of_nat (visible_count s1)) 3)).
Proof.
  intros Hm Hst. destruct (available v k) eqn:Hk.
  - destruct (Hm k Hk) as [p Hp].
    rewrite call_watcher_available by done.
    rewrite (update_visibility_Some _ _ _ p) by (by apply query_one_Some).
    eexists. split; [reflexivity|].
    set (s1 := set_grid_size_columns _ _).
    assert (∀ k', show k' s1 = show k' s) as Hshow.
    { intros k'. unfold s1.
      by rewrite show_set_grid_size_columns, show_set_body. }
    assert (∀ id, id ≠ widget_id k → body s1 !! id = body s !! id) as Hne.
    { intros id Hid. unfold s1. cbn [body set_grid_size_columns set_body].
      by rewrite lookup_insert_ne. }
    assert (body s1 !! widget_id k
            = Some (set_display (if show k s then block else none) p)) as Heq.
    { unfold s1. cbn [body set_grid_size_columns set_body].
      apply lookup_insert_eq. }
    split_and!; [|done|done| | |].
    + intros k' Hk'. destruct (decide (k' = k)) as [->|Hkk].
      * rewrite Heq. eauto.
      * rewrite Hne by (by intros ?%widget_id_inj). by apply Hm.
    + split; [done|]. intros k'. unfold widget_of.
      destruct (decide (k' = k)) as [->|Hkk].
      * by rewrite Heq, Hp.
      * by rewrite Hne by (by intros ?%widget_id_inj).
    + intros k' Hk' Hor. rewrite Hshow.
      destruct (decide (k' = k)) as [->|Hkk].
      * by rewrite Heq.
      * rewrite Hne by (by intros ?%widget_id_inj). by destruct Hor.
    + intros _.
      change (grid_size_columns s1) with (Some (Z.min (visible_panels s1) 3)).
      by rewrite visible_panels_count.
  - rewrite call_watcher_unavailable by done. exists s.
    split_and!; try done.
    + intros k' Hk' [->|Hd]; [congruence|done].
    + by intros [|].
Qed.

Lemma initialize_loop v l :
  ∀ s, mounted v s → screen_stack s = [] →
       ∃ s', for_each (fun k s0 => call_watcher v k (show k s0) s0) l s
             = (s', Done)
             ∧ mounted v s'
             ∧ screen_stack s' = []
             ∧ (∀ k', show k' s' = show k' s)
             ∧ same_widgets s s'
             ∧ (∀ k', available v k' = true →
                      k' ∈ l
                      ∨ display <$> body s !! widget_id k'
                        = Some (if show k' s then block else none) →
                      display <$> body s' !! widget_id k'
                      = Some (if show k' s' then block else none))
             ∧ ((∃ k, k ∈ l ∧ available v k = true)
                ∨ grid_size_columns s
                  = Some (Z.min (Z.of_nat (visible_count s)) 3) →
                grid_size_columns s'
                = Some (Z.min (Z.of_nat (visible_count s')) 3)).
Proof.
  induction l as [|k l IH]; intros s Hm Hst.
  - exists s. split_and!; try done.
    + intros k' _ [Hin|Hd]; [by apply elem_of_nil in Hin|done].
    + intros [(k & Hin & _)|Hg]; [by apply elem_of_nil in Hin|done].
  - destruct (initialize_step v k s Hm Hst)
      as (s1 & Hstep & Hm1 & Hst1 & Hshow1 & [Hed1 Hw1] & Hd1 & Hg1).
    destruct (IH s1 Hm1 Hst1)
      as (s' & Hrun & Hm' & Hst' & Hshow' & [Hed' Hw'] & Hd' & Hg').
    exists s'. split_and!.
    + cbn [for_each]. by erewrite and_then_done.
    + done.
    + done.
    + intros k'. by rewrite Hshow', Hshow1.
    + split; [congruence|]. intros k'. by rewrite Hw', Hw1.
    + intros k' Hk' Hor. apply Hd'; [done|].
      destruct Hor as [[->|Hin]%elem_of_cons|Hd].
      * right. apply Hd1; auto.
      * by left.
      * right. apply Hd1; auto.
    + intros Hor. apply Hg'.
      destruct Hor as [(k0 & [->|Hin]%elem_of_cons & Hk0)|Hg].
      * right. apply Hg1. by left.
      * left. eauto.
      * right. apply Hg1. by right.
Qed.

(** A mount handler that completes had its [set_code] complete. *)
Lemma on_mount_done v s s1 :
  on_mount v s = (s1, Done) → set_code v (startup_code s) s = (s1, Done).
Proof.
  unfold on_mount, and_then.
  destruct (set_code v (startup_code s) s) as [s0 [|e]]; [|done].
  intros Hf. pose proof (focus_editor_fst s0) as Hfst.
  rewrite Hf in Hfst. simpl in Hfst. by subst.
Qed.

(** X5: start-up ends, whether or not the mount handler raised, with the
    editor holding the start-up code, the default flags, two columns, the
    main screen on top and the layout in line with the flags; its outcome is
    the mount handler's.  When it completed, the widget of every stage of the
    active version is the freshly constructed one after one [set_code] of the
    start-up code.  The layout is still in line after any run of events that
    completes. *)
Theorem startup_establishes_layout v code s o :
  startup v (new_app v code) = (s, o) →
  editor_text (editor s) = code
  ∧ (∀ k, show k s = match k with Source | FinalBytecode => true
                                  | _ => false end)
  ∧ grid_size_columns s = Some 2
  ∧ layout_ok v s
  ∧ screen_stack s = []
  ∧ o = (on_mount v (new_app v code)).2
  ∧ (o = Done →
     ∀ k, available v k = true →
          ∃ w, widget_set_code code (widget_new k) = (w, Done)
               ∧ widget_of k s = Some w)
  ∧ ∀ es, (run v es s).2 = Done → layout_ok v (run v es s).1.
Proof.
  unfold startup, and_also. intros Hrun.
  pose proof (on_mount_fst v (new_app v code)) as Hfst.
  pose proof (on_mount_done v (new_app v code)) as Hmd.
  change (startup_code (new_app v code)) with code in Hfst, Hmd.
  pose proof (set_code_show v code (new_app v code)) as Hshow0.
  pose proof (set_code_editor v code (new_app v code)) as Hed0.
  pose proof (set_code_same_ids v code (new_app v code)) as Hids.
  pose proof (set_code_same_outside v code (new_app v code))
    as (_ & _ & _ & _ & Hst0 & _).
  pose proof (set_code_done v code (new_app v code)) as Hdone.
  destruct (on_mount v (new_app v code)) as [s1 o1]. simpl in Hfst.
  rewrite <- Hfst in Hshow0, Hed0, Hids, Hst0. clear Hfst.
  assert (mounted v s1) as Hm1.
  { intros k Hk. apply Hids, compose_ids, list_elem_of_fmap.
    exists k. by rewrite elem_of_stages. }
  assert (screen_stack s1 = []) as Hst1 by exact Hst0.
  destruct (initialize_loop v all_stages s1 Hm1 Hst1)
    as (s' & Hinit & Hm' & Hst' & Hshow' & [Hed' Hw'] & Hd' & Hg').
  unfold initialize_reactives in Hrun. rewrite Hinit in Hrun.
  injection Hrun as <- <-.
  assert (∀ k, show k s' = match k with Source | FinalBytecode => true
                                   | _ => false end) as Hflags.
  { intros k. rewrite Hshow', Hshow0. by destruct k. }
  assert (layout_ok v s') as Hok.
  { split.
    - intros k Hk. apply Hd'; [done|]. left.
      destruct k; unfold all_stages;
        repeat first [by apply list_elem_of_here | apply list_elem_of_further].
    - apply Hg'. left. exists Source.
      split; [apply list_elem_of_here | by destruct v]. }
  split_and!; try done.
  - by rewrite Hed'.
  - destruct Hok as [_ ->]. f_equal.
    rewrite <- visible_panels_count. unfold visible_panels.
    rewrite (Hflags Source : show_source s' = true),
      (Hflags Tokens : show_tokens s' = false),
      (Hflags AST : show_ast s' = false),
      (Hflags OptimizedAST : show_opt_ast s' = false),
      (Hflags PseudoBytecode : show_pseudo_bc s' = false),
      (Hflags OptimizedPseudoBytecode : show_opt_pseudo_bc s' = false),
      (Hflags FinalBytecode : show_code_obj s' = true).
    reflexivity.
  - by destruct o1.
  - intros Ho k Hk. destruct o1 as [|ex]; [|done].
    specialize (Hdone s1 (Hmd s1 eq_refl) k Hk).
    destruct Hdone as (p & w & Hp & Hcall & Hs1).
    destruct (compose_lookup v k Hk) as [t Ht].
    cbn [body new_app] in Hp. rewrite Ht in Hp. injection Hp as <-.
    exists w. split; [done|]. rewrite Hw'. unfold widget_of. by rewrite Hs1.
  - intros es. by apply layout_ok_run_done.
Qed.
End Startup.

Lemma startup_establishes_layout_witness :
  startup (H := toy_panel) false (new_app (H := toy_panel) false "a = 1")
  = (panel_app false, Done)
  ∧ grid_size_columns (panel_app false) = Some 2
  ∧ layout_ok false (panel_app false).
Proof.
  assert (startup (H := toy_panel) false
            (new_app (H := toy_panel) false "a = 1")
          = (panel_app false, Done)) as Hrun.
  { vm_compute. reflexivity. }
  split; [exact Hrun|].
  destruct (startup_establishes_layout (H := toy_panel) false "a = 1"
              (panel_app false) Done Hrun) as (_ & _ & Hg & Hok & _).
  split; [exact Hg | exact Hok].
Defined.

(** ** What can raise *)

Section Raising.
Context {W : Type} `{Widget W}.
Implicit Types s : CodeViewer W.

(** A fan-out that raises on the main screen, with the widgets mounted,
    raises from the method of one widget. *)
Lemma call_all_raise_mounted v (m : W → W * outcome) s s' ex :
  mounted v s → screen_stack s = [] →
  call_all m (widget_id <$> stages v) s = (s', Raise ex) →
  ∃ k p w, available v k = true
           ∧ body s !! widget_id k = Some p
           ∧ m (child p) = (w, Raise ex).
Proof.
  intros Hm Hst Hrun.
  destruct (call_all_raise _ _ _ _ _ (stage_ids_NoDup v) Hrun)
    as (pre' & id & post' & Hsplit & _ & Hat & _).
  assert (id ∈ widget_id <$> stages v) as Hin.
  { rewrite Hsplit. apply elem_of_app. right. apply elem_of_cons. by left. }
  apply list_elem_of_fmap in Hin as (k & -> & Hk%elem_of_stages).
  destruct Hat as [(Hnone & _)|(p & w & Hp & Hcall & _)].
  - destruct (Hm k Hk) as [p Hp].
    rewrite query_one_main in Hnone by done. congruence.
  - apply query_one_Some in Hp as [_ Hp]. by exists k, p, w.
Qed.

(** X6: what makes an event raise, with every widget of the active version
    in the DOM.  Behind a pushed screen: a hover, whose first query finds
    nothing and which changes nothing, or the toggle key of a stage, which
    stores the flag before its watcher's query finds nothing.  On the main
    screen: a hover on which the [highlight] of some stage's widget raises.
    And the dismissal of the editor with a new text, which is already in the
    editor when either the [set_code] of some stage's widget raises on it or,
    another screen still being on top, the first query finds nothing.
    Nothing else raises. *)
Theorem what_raises v e s s' ex :
  mounted v s →
  handle v e s = (s', Raise ex) →
  (screen_stack s ≠ []
   ∧ ∃ message, e = Hovered message ∧ ex = NoMatches "#source" ∧ s' = s)
  ∨ (screen_stack s ≠ []
     ∧ ∃ key k, e = KeyPress key
                ∧ lookup_binding (BINDINGS v) key = Some (toggle_of k)
                ∧ ex = NoMatches ("#" ++ widget_id k)
                ∧ s' = set_show k (negb (show k s)) s)
  ∨ (screen_stack s = []
     ∧ ∃ message k p w,
         e = Hovered message
         ∧ available v k = true
         ∧ body s !! widget_id k = Some p
         ∧ widget_highlight (lineno message) (child p) = (w, Raise ex))
  ∨ (∃ c rest,
       e = EditorDismissed (Some c)
       ∧ screen_stack s = "editor" :: rest
       ∧ editor_text (editor s') = c
       ∧ ((rest ≠ [] ∧ ex = NoMatches "#source")
          ∨ (rest = []
             ∧ ∃ k p w, available v k = true
                        ∧ body s !! widget_id k = Some p
                        ∧ widget_set_code c (child p) = (w, Raise ex)))).
Proof.
  intros Hm Hrun. destruct e as [key|message|result|]; simpl in Hrun.
  - right. left. unfold on_key in Hrun.
    destruct (lookup_binding (all_bindings v) key) as [a|] eqn:Hkey; [|done].
    destruct (bound_action_cases v key a Hkey)
      as [->|[->|[->|(k & -> & Hk & Hown)]]]; [done|done| |].
    { exfalso. cbn [run_action] in Hrun. unfold action_command_palette in Hrun.
      destruct (screen_stack s) as [|top rest]; [done|].
      by destruct (String.eqb top "--command-palette"). }
    destruct (screen_stack s) as [|top rest] eqn:Hst.
    + exfalso. destruct (Hm k Hk) as [p Hp].
      by rewrite (run_action_toggle_Some v k s p Hk Hst Hp) in Hrun.
    + rewrite run_action_toggle_pushed in Hrun by (by rewrite ?Hst).
      injection Hrun as <- <-. split; [done|]. by exists key, k.
  - rewrite on_hover_line_stages in Hrun. unfold highlight_call in Hrun.
    destruct (screen_stack s) as [|top rest] eqn:Hst.
    + right. right. left. split; [done|].
      destruct (call_all_raise_mounted v _ s s' ex Hm Hst Hrun)
        as (k & p & w & Hk & Hp & Hcall).
      by exists message, k, p, w.
    + left. split; [done|]. exists message.
      destruct (stage_ids_cons v) as [ids Hids]. rewrite Hids in Hrun.
      rewrite call_all_pushed in Hrun by (by rewrite Hst).
      by injection Hrun as <- <-.
  - right. right. right. unfold dismiss_editor in Hrun.
    destruct (screen_stack s) as [|top rest] eqn:Hst; [done|].
    destruct (String.eqb top "editor") eqn:Htop; [|done].
    apply String.eqb_eq in Htop as ->.
    destruct result as [c|]; [|done]. simpl in Hrun.
    exists c, rest. split_and!; [done|done| |].
    { pose proof (set_code_editor v c (set_screen_stack rest s)) as Hed.
      by rewrite Hrun in Hed. }
    rewrite set_code_stages in Hrun.
    destruct rest as [|top' rest'].
    + right. split; [done|].
      apply (call_all_raise_mounted v _ _ s' ex) in Hrun; done.
    + left. split; [done|].
      destruct (stage_ids_cons v) as [ids Hids]. rewrite Hids in Hrun.
      rewrite call_all_pushed in Hrun by done.
      by injection Hrun as _ <-.
  - exfalso. unfold dismiss_palette in Hrun.
    destruct (screen_stack s) as [|top rest]; [done|].
    by destruct (String.eqb top "--command-palette").
Qed.

(** X7: a [set_code(code)] that completes has applied the [set_code] of each
    widget of the active version once, to the widget that was there, and left
    the code in the editor; flags, displays, columns, screen stack and every
    other id are as before. *)
Theorem set_code_completed v code s s' :
  set_code v code s = (s', Done) →
  editor_text (editor s') = code
  ∧ (∀ k, show k s' = show k s)
  ∧ grid_size_columns s' = grid_size_columns s
  ∧ screen_stack s' = screen_stack s
  ∧ (∀ id, display <$> body s' !! id = display <$> body s !! id)
  ∧ (∀ k, available v k = true →
          went_through (widget_set_code code) s s' (widget_id k))
  ∧ (∀ id, id ∉ widget_id <$> stages v → body s' !! id = body s !! id).
Proof.
  intros Hrun.
  pose proof (set_code_same_outside v code s) as (_ & Hshow & Hed & Hg & Hst & Hd).
  pose proof (set_code_done v code s s' Hrun) as Hdone.
  pose proof (fun id => call_all_lookup_other (widget_set_code code)
                (widget_id <$> stages v)
                (set_editor (editor_set_code code (editor s)) s) id) as Hother.
  rewrite <- set_code_stages in Hother.
  rewrite Hrun in *. simpl in *.
  split_and!; try done; try (by rewrite Hed);
    intros k; rewrite Hshow; by destruct k.
Qed.

(** X8: a [set_code(code)] that raises has still left the code in the
    editor; the widgets of the stages before the failing one went through
    their [set_code], the failing one is as its own [set_code] left it (or
    was not found by the query), the widgets of the later stages were not
    touched; flags, displays, columns and screen stack are as before.  With
    a screen pushed over the main one it is the query of the first stage
    that fails. *)
Theorem set_code_interrupted v code s s' ex :
  set_code v code s = (s', Raise ex) →
  editor_text (editor s') = code
  ∧ (∀ k, show k s' = show k s)
  ∧ grid_size_columns s' = grid_size_columns s
  ∧ screen_stack s' = screen_stack s
  ∧ (∀ id, display <$> body s' !! id = display <$> body s !! id)
  ∧ (∃ (pre : list StageKind) (k : StageKind) (post : list StageKind),
      stages v = (pre ++ k :: post)%list
      ∧ (∀ j, j ∈ pre →
              went_through (widget_set_code code) s s' (widget_id j))
      ∧ failed_at (widget_set_code code) s s' (widget_id k) ex
      ∧ (∀ j, j ∈ post → body s' !! widget_id j = body s !! widget_id j))
  ∧ (screen_stack s ≠ [] → ex = NoMatches "#source" ∧ body s' = body s).
Proof.
  intros Hrun.
  pose proof (set_code_same_outside v code s) as (_ & Hshow & Hed & Hg & Hst & Hd).
  pose proof (set_code_raise v code s s' ex Hrun) as Hraise.
  assert (screen_stack s ≠ [] → ex = NoMatches "#source" ∧ body s' = body s)
    as Hpushed.
  { intros Hne. rewrite set_code_stages in Hrun.
    destruct (stage_ids_cons v) as [ids Hids]. rewrite Hids in Hrun.
    rewrite call_all_pushed in Hrun by done.
    by injection Hrun as <- <-. }
  rewrite Hrun in *. simpl in *.
  split_and!; try done; try (by rewrite Hed);
    intros k; rewrite Hshow; by destruct k.
Qed.
End Raising.

Lemma what_raises_witness :
  mounted true (action_open_editor (recorded_app true)).1
  ∧ handle (H := toy_recorder) true (EditorDismissed (Some "1 +"))
      (action_open_editor (recorded_app true)).1
    = ((handle (H := toy_recorder) true (EditorDismissed (Some "1 +"))
          (action_open_editor (recorded_app true)).1).1,
       Raise (CompilationFailed AST "invalid syntax"))
  ∧ ∃ k p w,
      available true k = true
      ∧ body (action_open_editor (recorded_app true)).1 !! widget_id k
        = Some p
      ∧ widget_set_code (Widget := toy_recorder) "1 +" (child p)
        = (w, Raise (CompilationFailed AST "invalid syntax")).
Proof.
  assert (mounted true (action_open_editor (recorded_app true)).1) as Hm.
  { intros k _. destruct k; vm_compute; eexists; reflexivity. }
  assert (handle (H := toy_recorder) true (EditorDismissed (Some "1 +"))
            (action_open_editor (recorded_app true)).1
          = ((handle (H := toy_recorder) true (EditorDismissed (Some "1 +"))
                (action_open_editor (recorded_app true)).1).1,
             Raise (CompilationFailed AST "invalid syntax"))) as Hrun.
  { vm_compute. reflexivity. }
  pose proof (what_raises (H := toy_recorder) true _ _ _ _ Hm Hrun) as Hcase.
  split; [exact Hm|]. split; [exact Hrun|]. clear Hm Hrun.
  destruct Hcase
    as [(_ & m & He & _)
       |[(_ & key & k & He & _)
        |[(_ & m & k & p & w & He & _)
         |(c & rest & He & Hst & _ & Hor)]]];
    [discriminate He | discriminate He | discriminate He |].
  injection He as <-. vm_compute in Hst. injection Hst as <-.
  destruct Hor as [[Hne _]|[_ Hw]]; [by destruct Hne | exact Hw].
Defined.

Lemma set_code_completed_witness :
  set_code (H := toy_recorder) false "b = 2" (recorded_app false)
  = ((set_code (H := toy_recorder) false "b = 2" (recorded_app false)).1, Done)
  ∧ editor_text
      (editor (set_code (H := toy_recorder) false "b = 2"
                 (recorded_app false)).1)
    = "b = 2".
Proof.
  assert (set_code (H := toy_recorder) false "b = 2" (recorded_app false)
          = ((set_code (H := toy_recorder) false "b = 2"
                (recorded_app false)).1, Done)) as Hrun.
  { vm_compute. reflexivity. }
  split; [exact Hrun|].
  exact (proj1 (set_code_completed (H := toy_recorder) false "b = 2"
                  (recorded_app false) _ Hrun)).
Defined.

Lemma set_code_interrupted_witness :
  set_code (H := toy_recorder) true "1 +" (recorded_app true)
  = ((set_code (H := toy_recorder) true "1 +" (recorded_app true)).1,
     Raise (CompilationFailed AST "invalid syntax"))
  ∧ editor_text
      (editor (set_code (H := toy_recorder) true "1 +"
                 (recorded_app true)).1)
    = "1 +".
Proof.
  assert (set_code (H := toy_recorder) true "1 +" (recorded_app true)
          = ((set_code (H := toy_recorder) true "1 +"
                (recorded_app true)).1,
             Raise (CompilationFailed AST "invalid syntax"))) as Hrun.
  { vm_compute. reflexivity. }
  split; [exact Hrun|].
  exact (proj1 (set_code_interrupted (H := toy_recorder) true "1 +"
                  (recorded_app true) _ _ Hrun)).
Defined.

(** ** Bindings and titles *)

(** X10: a stage has a widget exactly when a key is bound to its toggle;
    the widget under the stage's id is the one constructed for that stage,
    it starts displayed, and its title ends with that key in brackets. *)
Theorem titles_name_the_toggle_keys {W} `{Widget W} v k :
  (available v k = true
   ↔ ∃ key, lookup_binding (BINDINGS v) key = Some (toggle_of k))
  ∧ (is_Some (compose v !! widget_id k) ↔ available v k = true)
  ∧ (available v k = true →
     ∃ key name,
       lookup_binding (BINDINGS v) key = Some (toggle_of k)
       ∧ compose v !! widget_id k
         = Some {| title := name ++ " (" ++ key ++ ")";
                   display := block;
                   child := widget_new k |}).
Proof.
  split_and!.
  - split; [|intros [key Hkey]; by eapply bound_toggle_available].
    destruct v, k; simpl; try discriminate; intros _.
    all: first [ by exists "1" | by exists "2" | by exists "3" | by exists "4"
               | by exists "5" | by exists "6" | by exists "7" ].
  - rewrite compose_ids, list_elem_of_fmap. split.
    + intros (k' & Heq & Hk'). apply widget_id_inj in Heq as <-.
      by apply elem_of_stages.
    + intros Hk. exists k. by rewrite elem_of_stages.
  - destruct v, k; simpl; try discriminate; intros _; unfold compose.
    all: first
      [ exists "1", "Source"; split; [reflexivity|]; by simplify_map_eq
      | exists "2", "Tokens"; split; [reflexivity|]; by simplify_map_eq
      | exists "3", "AST"; split; [reflexivity|]; by simplify_map_eq
      | exists "4", "Optimized AST"; split; [reflexivity|];
        by simplify_map_eq
      | exists "5", "Pseudo Bytecode"; split; [reflexivity|];
        by simplify_map_eq
      | exists "6", "Optimized Pseudo Bytecode"; split; [reflexivity|];
        by simplify_map_eq
      | exists "7", "Assembled Bytecode"; split; [reflexivity|];
        by simplify_map_eq ].
Qed.

Lemma titles_name_the_toggle_keys_witness :
  available false FinalBytecode = true
  ∧ ∃ key name,
      lookup_binding (BINDINGS false) key = Some (toggle_of FinalBytecode)
      ∧ compose (H := toy_recorder) false !! widget_id FinalBytecode
        = Some {| title := name ++ " (" ++ key ++ ")";
                  display := block;
                  child := widget_new (Widget := toy_recorder) FinalBytecode |}.
Proof.
  split; [reflexivity|].
  exact (proj2 (proj2 (titles_name_the_toggle_keys (H := toy_recorder)
                         false FinalBytecode)) eq_refl).
Defined.

(** X11: under the reduced toolchain, at any point of any run, updating the
    visibility of a stage the toolchain lacks finds no widget: it raises
    [NoMatches] for the stage's id and changes nothing (the three watchers
    that would do so are defined only under the full toolchain). *)
Theorem missing_stage_has_no_widget {W} `{Widget W} code es k b :
  needs_3_13 k = true →
  update_visibility (widget_id k) b
    (run false es (startup false (new_app false code)).1).1
  = ((run false es (startup false (new_app false code)).1).1,
     Raise (NoMatches ("#" ++ widget_id k))).
Proof.
  intros Hk. apply update_visibility_None.
  unfold query_one. destruct (screen_stack _); [|done].
  apply eq_None_not_Some. rewrite started_ids.
  apply unavailable_id. by destruct k.
Qed.

Lemma missing_stage_has_no_widget_witness :
  needs_3_13 PseudoBytecode = true
  ∧ update_visibility (widget_id PseudoBytecode) true
      (run (H := toy_recorder) false [KeyPress "2"]
         (startup (H := toy_recorder) false
            (new_app (H := toy_recorder) false "a = 1")).1).1
    = ((run (H := toy_recorder) false [KeyPress "2"]
          (startup (H := toy_recorder) false
             (new_app (H := toy_recorder) false "a = 1")).1).1,
       Raise (NoMatches "#pseudo-bc")).
Proof.
  split; [reflexivity|].
  exact (missing_stage_has_no_widget (H := toy_recorder) "a = 1"
           [KeyPress "2"] PseudoBytecode true eq_refl).
Defined.

(** ** Toggles against the fan-outs *)

Section ToggleFanOut.
Context {W : Type} `{Widget W}.
Implicit Types s : CodeViewer W.
Implicit Types m : W → W * outcome.

Lemma toggled_Some k b s p :
  screen_stack s = [] →
  body s !! widget_id k = Some p →
  toggled k b s
  = set_grid_size_columns (Z.min (visible_panels (set_show k b s)) 3)
      (set_body
         (<[widget_id k := set_display (if b then block else none) p]>
            (body s))
         (set_show k b s)).
Proof.
  intros Hst Hp. unfold toggled.
  by rewrite (update_visibility_Some _ _ _ p) by (by apply query_one_Some).
Qed.

Lemma run_action_toggled v k s :
  available v k = true → screen_stack s = [] →
  is_Some (body s !! widget_id k) →
  run_action v (toggle_of k) s = (toggled k (negb (show k s)) s, Done).
Proof.
  intros Hk Hst [p Hp].
  by rewrite (run_action_toggle_Some v k s p Hk Hst Hp),
       (toggled_Some k _ s p Hst Hp).
Qed.

(** A widget call and a toggle act on different parts of the application. *)
Lemma call_toggled k b id m s :
  screen_stack s = [] →
  is_Some (body s !! widget_id k) →
  call id m (toggled k b s) = (toggled k b (call id m s).1, (call id m s).2).
Proof.
  intros Hst [p Hp]. rewrite (toggled_Some k b s p Hst Hp).
  destruct (body s !! id) as [q|] eqn:Hq.
  - rewrite (call_Some id m s q) by (by apply query_one_Some).
    cbn [fst snd].
    set (w := (m (child q)).1). set (o := (m (child q)).2).
    destruct (decide (id = widget_id k)) as [->|Hne].
    + assert (q = p) as -> by congruence.
      erewrite call_Some
        by (apply query_one_Some; split; [exact Hst|];
            cbn [body set_grid_size_columns set_body];
            apply lookup_insert_eq).
      erewrite (toggled_Some k b (set_body _ s))
        by (first [exact Hst | cbn [body set_body]; apply lookup_insert_eq]).
      cbn [child set_display]. fold w o. f_equal.
      apply CodeViewer_eq; try done.
      cbn [body set_grid_size_columns set_body].
      by rewrite !insert_insert_eq.
    + erewrite call_Some
        by (apply query_one_Some; split; [exact Hst|];
            cbn [body set_grid_size_columns set_body];
            by rewrite lookup_insert_ne by done).
      erewrite (toggled_Some k b (set_body _ s))
        by (first [exact Hst
                  | cbn [body set_body]; by rewrite lookup_insert_ne by done]).
      fold w o. f_equal.
      apply CodeViewer_eq; try done.
      cbn [body set_grid_size_columns set_body].
      by apply insert_insert_ne.
  - rewrite (call_None id m s) by (by rewrite query_one_main).
    cbn [fst snd].
    rewrite (toggled_Some k b s p Hst Hp).
    apply call_None. rewrite query_one_main by exact Hst.
    cbn [body set_grid_size_columns set_body].
    rewrite lookup_insert_ne; [done|]. intros <-. congruence.
Qed.

Lemma call_all_toggled k b m ids s :
  screen_stack s = [] →
  is_Some (body s !! widget_id k) →
  call_all m ids (toggled k b s)
  = (toggled k b (call_all m ids s).1, (call_all m ids s).2).
Proof.
  revert s. induction ids as [|i ids IH]; intros s Hst Hs; [done|].
  rewrite !call_all_cons.
  unfold and_then. rewrite (call_toggled k b i m s Hst Hs).
  pose proof (proj2 (call_is_Some i (widget_id k) m s) Hs) as Hs1.
  pose proof (call_screen_stack i m s) as Hst1. rewrite Hst in Hst1.
  destruct (call i m s) as [s1 [|e]]; cbn [fst snd] in *; [|done].
  by apply IH.
Qed.

Lemma toggled_set_editor k b e s :
  toggled k b (set_editor e s) = set_editor e (toggled k b s).
Proof.
  unfold toggled, update_visibility, query_one.
  cbn [body screen_stack set_show set_editor].
  destruct (screen_stack s); [|by apply CodeViewer_eq].
  destruct (body s !! widget_id k) as [p|]; cbn [fst];
    by apply CodeViewer_eq.
Qed.

(** X12: on the main screen, with every widget of the active version in the
    DOM, a toggle and a hover act on different parts of the application: the
    hover after the toggle of a stage gives the outcome of the hover alone
    and the application that the toggle gives after the hover, whether the
    hover completes or raises; when it completes, both orders complete with
    the same application. *)
Theorem toggle_commutes_with_hover v k message s :
  available v k = true → mounted v s → screen_stack s = [] →
  (run_action v (toggle_of k) ;; on_hover_line v message) s
  = ((run_action v (toggle_of k) (on_hover_line v message s).1).1,
     (on_hover_line v message s).2)
  ∧ ((on_hover_line v message s).2 = Done →
     (run_action v (toggle_of k) ;; on_hover_line v message) s
     = (on_hover_line v message ;; run_action v (toggle_of k)) s).
Proof.
  intros Hk Hm Hst.
  assert ((run_action v (toggle_of k) ;; on_hover_line v message) s
          = ((run_action v (toggle_of k) (on_hover_line v message s).1).1,
             (on_hover_line v message s).2)) as Heq.
  { erewrite and_then_done by (apply run_action_toggled; auto).
    pose proof (on_hover_line_same_outside v message s)
      as (_ & Hshow & _ & _ & Hst' & _).
    pose proof (proj2 (on_hover_line_same_ids v message s (widget_id k))
                  (Hm k Hk)) as Hsome.
    rewrite (run_action_toggled v k (on_hover_line v message s).1 Hk)
      by (first [by rewrite Hst', Hst | done]).
    cbn [fst]. rewrite Hshow.
    rewrite !on_hover_line_stages.
    apply call_all_toggled; [done|]. exact (Hm k Hk). }
  split; [exact Heq|].
  intros Hdone. rewrite Heq. unfold and_then.
  pose proof (on_hover_line_same_outside v message s)
    as (_ & _ & _ & _ & Hst' & _).
  pose proof (proj2 (on_hover_line_same_ids v message s (widget_id k))
                (Hm k Hk)) as Hsome.
  destruct (on_hover_line v message s) as [s1 o]. cbn [fst snd] in *.
  subst o. rewrite run_action_toggled; [done..|by rewrite Hst'|done].
Qed.

(** X13: on the main screen, a toggle and [set_code] act on different parts
    of the application: [set_code] after the toggle of a stage gives the
    outcome of [set_code] alone and the application that the toggle gives
    after [set_code], whether [set_code] completes or raises. *)
Theorem toggle_then_set_code v k code s :
  available v k = true → mounted v s → screen_stack s = [] →
  (run_action v (toggle_of k) ;; set_code v code) s
  = ((run_action v (toggle_of k) (set_code v code s).1).1,
     (set_code v code s).2).
Proof.
  intros Hk Hm Hst.
  erewrite and_then_done by (apply run_action_toggled; auto).
  pose proof (set_code_show v code s k) as Hshow.
  pose proof (set_code_same_outside v code s)
    as (_ & _ & _ & _ & Hst' & _).
  pose proof (proj2 (set_code_same_ids v code s (widget_id k)) (Hm k Hk))
    as Hsome.
  rewrite (run_action_toggled v k (set_code v code s).1 Hk)
    by (first [by rewrite Hst' | done]).
  cbn [fst]. rewrite Hshow.
  rewrite !set_code_stages.
  assert (editor (toggled k (negb (show k s)) s) = editor s) as ->.
  { destruct (Hm k Hk) as [p Hp]. by rewrite (toggled_Some k _ s p Hst Hp). }
  rewrite <- toggled_set_editor.
  apply call_all_toggled; [done|]. exact (Hm k Hk).
Qed.
End ToggleFanOut.

Lemma toggle_commutes_with_hover_witness :
  mounted true (recorded_app true)
  ∧ screen_stack (recorded_app true) = []
  ∧ (run_action true (toggle_of Tokens)
     ;; on_hover_line (H := toy_recorder) true {| lineno := 2 |})
      (recorded_app true)
    = (on_hover_line (H := toy_recorder) true {| lineno := 2 |}
       ;; run_action true (toggle_of Tokens))
        (recorded_app true).
Proof.
  assert (mounted true (recorded_app true)) as Hm.
  { intros k _. destruct k; vm_compute; eexists; reflexivity. }
  split; [exact Hm|]. split; [reflexivity|].
  apply (proj2 (toggle_commutes_with_hover (H := toy_recorder) true Tokens
                  {| lineno := 2 |} (recorded_app true) eq_refl Hm eq_refl)).
  vm_compute. reflexivity.
Defined.

Lemma toggle_then_set_code_witness :
  mounted true (recorded_app true)
  ∧ screen_stack (recorded_app true) = []
  ∧ (run_action true (toggle_of AST)
     ;; set_code (H := toy_recorder) true "1 +")
      (recorded_app true)
    = ((run_action true (toggle_of AST)
          (set_code (H := toy_recorder) true "1 +" (recorded_app true)).1).1,
       Raise (CompilationFailed AST "invalid syntax")).
Proof.
  assert (mounted true (recorded_app true)) as Hm.
  { intros k _. destruct k; vm_compute; eexists; reflexivity. }
  split; [exact Hm|]. split; [reflexivity|].
  exact (toggle_then_set_code (H := toy_recorder) true AST "1 +"
           (recorded_app true) eq_refl Hm eq_refl).
Defined.
